(** * Routing and escalation decision engine of the support-ticket backend

    A shallow embedding of the decision code of the backend
    ([app/services/router.py], [app/services/reply_generator.py],
    [app/schemas/ticket.py], [app/config.py], [app/api/tickets.py]) and the
    properties of it that the design document states.

    Conventions.
    - A Python [float] is an IEEE 754 binary64 number, modelled by Rocq's
      primitive [float]; comparisons are the primitive ones, so that a NaN
      compares false with everything, as in Python.
    - A Python [dict] used as a lookup table is a [gmap]; [d.get(k, v)] is
      [default v (d !! k)].
    - Module-level configuration ([app.config.settings]) is read-only state
      and is passed explicitly.
    - A raised exception is an [outcome]; the mutable [Ticket] row that the
      endpoints fill in field by field is threaded through a small
      state-and-exception monad, because an exception leaves the fields
      assigned so far in place.
    - Logging calls have no effect on any result and are left out. *)

From Stdlib Require Import Floats ZArith Lia Ascii String.
From stdpp Require Import base gmap strings list pretty.

Open Scope string_scope.

(* Decimal literals denote the nearest binary64 number, as in Python. *)
Set Warnings "-inexact-float".

(** ** Python floats *)

Module PyFloat.

Definition le (x y : float) : bool := PrimFloat.leb x y.
Definition lt (x y : float) : bool := PrimFloat.ltb x y.
(** [x >= y] is [y <= x]; both are false as soon as one side is a NaN. *)
Definition ge (x y : float) : bool := PrimFloat.leb y x.

(** [min(a, b)]: the first argument is kept unless the second is strictly
    smaller. *)
Definition min (a b : float) : float := if lt b a then b else a.
(** [max(a, b)]: the first argument is kept unless the second is strictly
    greater. *)
Definition max (a b : float) : float := if lt a b then b else a.

(** A float that is not a NaN is the only kind that is [<=] itself. *)
Definition is_number (x : float) : bool := le x x.

End PyFloat.

(** ** Enumerations of [app/models/ticket.py] *)

Inductive IntentType : Set :=
  | BILLING | TECHNICAL_ISSUE | ACCOUNT_ACCESS
  | CANCELLATION | FEATURE_REQUEST | GENERAL_INQUIRY.

Inductive UrgencyLevel : Set := LOW | MEDIUM | HIGH | CRITICAL.

Inductive TicketStatus : Set :=
  | PENDING_REVIEW | APPROVED | SENT | ESCALATED | CLOSED.

(** The [.value] of an enumeration member. *)
Definition IntentType_value (i : IntentType) : string :=
  match i with
  | BILLING => "billing"
  | TECHNICAL_ISSUE => "technical_issue"
  | ACCOUNT_ACCESS => "account_access"
  | CANCELLATION => "cancellation"
  | FEATURE_REQUEST => "feature_request"
  | GENERAL_INQUIRY => "general_inquiry"
  end.

Definition UrgencyLevel_value (u : UrgencyLevel) : string :=
  match u with
  | LOW => "low" | MEDIUM => "medium" | HIGH => "high" | CRITICAL => "critical"
  end.

Definition all_intents : list IntentType :=
  [BILLING; TECHNICAL_ISSUE; ACCOUNT_ACCESS; CANCELLATION; FEATURE_REQUEST;
   GENERAL_INQUIRY].

Definition all_urgencies : list UrgencyLevel := [LOW; MEDIUM; HIGH; CRITICAL].

#[global] Instance IntentType_eq_dec : EqDecision IntentType.
Proof. solve_decision. Defined.

#[global] Instance UrgencyLevel_eq_dec : EqDecision UrgencyLevel.
Proof. solve_decision. Defined.

#[global] Instance TicketStatus_eq_dec : EqDecision TicketStatus.
Proof. solve_decision. Defined.

Definition IntentType_index (i : IntentType) : nat :=
  match i with
  | BILLING => 0 | TECHNICAL_ISSUE => 1 | ACCOUNT_ACCESS => 2
  | CANCELLATION => 3 | FEATURE_REQUEST => 4 | GENERAL_INQUIRY => 5
  end.

Definition UrgencyLevel_index (u : UrgencyLevel) : nat :=
  match u with LOW => 0 | MEDIUM => 1 | HIGH => 2 | CRITICAL => 3 end.

#[global] Program Instance IntentType_countable : Countable IntentType :=
  inj_countable' IntentType_index (fun n => default BILLING (all_intents !! n)) _.
Next Obligation. by intros []. Qed.

#[global] Program Instance UrgencyLevel_countable : Countable UrgencyLevel :=
  inj_countable' UrgencyLevel_index (fun n => default LOW (all_urgencies !! n)) _.
Next Obligation. by intros []. Qed.

(** ** Configuration, [app/config.py]

    Only the fields that the decision code or the design document refer to
    are kept. *)

Record Settings : Set := {
  auto_send_threshold : float;
  escalation_threshold : float;
  sla_low : Z;
  sla_medium : Z;
  sla_high : Z;
  sla_critical : Z
}.

(** The values a [Settings()] built without environment overrides has. *)
Definition settings : Settings := {|
  auto_send_threshold := 0.8;
  escalation_threshold := 0.6;
  sla_low := 48;
  sla_medium := 24;
  sla_high := 8;
  sla_critical := 2
|}.

(** ** [RouterService], [app/services/router.py] *)

Module RouterService.

(** The two class-level tables, as seen through [self]. *)
Record t := {
  INTENT_TEAM_MAP : gmap IntentType string;
  SLA_HOURS : gmap UrgencyLevel Z
}.

Definition ESCALATED_SUFFIX : string := " - ESCALATED".

Definition route_ticket (self : t) (intent : IntentType)
    (urgency : UrgencyLevel) : string :=
  let team := default "General Support" (INTENT_TEAM_MAP self !! intent) in
  if bool_decide (urgency = CRITICAL) then team ++ ESCALATED_SUFFIX else team.

Definition get_sla_hours (self : t) (urgency : UrgencyLevel) : Z :=
  default 24%Z (SLA_HOURS self !! urgency).

Definition should_auto_send (settings : Settings) (confidence : float)
    (urgency : UrgencyLevel) : bool :=
  if bool_decide (urgency ∈ [CRITICAL; HIGH]) then false
  else if PyFloat.ge confidence (auto_send_threshold settings) then true
  else false.

Definition should_escalate (settings : Settings) (confidence : float)
    (urgency : UrgencyLevel) : bool :=
  if bool_decide (urgency = CRITICAL) then true
  else if PyFloat.lt confidence (escalation_threshold settings) then true
  else false.

End RouterService.

(** The singleton [router_service = RouterService()]: its tables are the
    literals of the class body. *)
Definition router_service : RouterService.t := {|
  RouterService.INTENT_TEAM_MAP :=
    list_to_map
      [(BILLING, "Finance Team");
       (TECHNICAL_ISSUE, "Tech Support");
       (ACCOUNT_ACCESS, "Account Services");
       (CANCELLATION, "Retention Team");
       (FEATURE_REQUEST, "Product Team");
       (GENERAL_INQUIRY, "General Support")];
  RouterService.SLA_HOURS :=
    list_to_map [(LOW, 48%Z); (MEDIUM, 24%Z); (HIGH, 8%Z); (CRITICAL, 2%Z)]
|}.

(** ** Exceptions

    Every exception class that the modelled code raises or catches derives
    from [Exception], which is what the handlers name. *)

Inductive exn : Set :=
  | JSONDecodeError (msg : string)
  | ValidationError (msg : string)
  | TypeError (msg : string)
  | HTTPException (status_code : Z) (detail : string)
  | Exception (msg : string).

Definition exn_str (e : exn) : string :=
  match e with
  | JSONDecodeError msg | ValidationError msg | TypeError msg
  | HTTPException _ msg | Exception msg => msg
  end.

Inductive outcome (A : Type) : Type :=
  | Returned (a : A)
  | Raised (e : exn).

Arguments Returned {A} a.
Arguments Raised {A} e.

Definition has_raised {A} (o : outcome A) : bool :=
  match o with Raised _ => true | Returned _ => false end.

(** ** Schemas, [app/schemas/ticket.py] *)

Definition IntentType_of_value (s : string) : option IntentType :=
  List.find (fun i => String.eqb (IntentType_value i) s) all_intents.

Definition UrgencyLevel_of_value (s : string) : option UrgencyLevel :=
  List.find (fun u => String.eqb (UrgencyLevel_value u) s) all_urgencies.

(** The constraint of [Field(ge=0.0, le=1.0)]. *)
Definition Field_ge0_le1 (v : float) : bool :=
  PyFloat.ge v 0%float && PyFloat.le v 1%float.

Module TicketCreate.

Record t : Set := {
  customer_email : string;
  subject : string;
  body : string;
  source : string
}.

End TicketCreate.

Module ClassificationResult.

Record t : Set := {
  intent : IntentType;
  urgency : UrgencyLevel;
  confidence : float;
  reasoning : option string
}.

(** Construction validates: the two labels must be values of their
    enumerations and the confidence must satisfy the field constraint;
    otherwise pydantic raises a validation error. *)
Definition new (intent urgency : string) (confidence : float)
    (reasoning : option string) : outcome t :=
  match IntentType_of_value intent, UrgencyLevel_of_value urgency with
  | Some i, Some u =>
      if Field_ge0_le1 confidence
      then Returned {| intent := i; urgency := u; confidence := confidence;
                       reasoning := reasoning |}
      else Raised (ValidationError "confidence")
  | None, _ => Raised (ValidationError "intent")
  | _, None => Raised (ValidationError "urgency")
  end.

End ClassificationResult.

Module ReplyResult.

Record t : Set := {
  reply : string;
  confidence : float
}.

Definition new (reply : string) (confidence : float) : outcome t :=
  if Field_ge0_le1 confidence
  then Returned {| reply := reply; confidence := confidence |}
  else Raised (ValidationError "confidence").

End ReplyResult.

(** ** The external services

    The two calls to the language model and the mail fetch are outside the
    program; their answers are taken as given. [llm_classify] stands for the
    chat completion of [classify_ticket] followed by [json.loads] and the
    reading of the four keys; [llm_reply] stands for the chat completion of
    [generate_reply] up to [message.content]. *)

Record RawClassification : Set := {
  raw_intent : string;
  raw_urgency : string;
  raw_confidence : float;
  raw_reasoning : option string
}.

Record External : Type := {
  llm_classify : string -> string -> outcome RawClassification;
  llm_reply : string -> string -> string -> string -> outcome string;
  fetch_unread_emails : Z -> list TicketCreate.t
}.

(** ** [ClassifierService], [app/services/classifier.py] *)

Definition classify_ticket (ext : External) (subject body : string)
    : outcome ClassificationResult.t :=
  match llm_classify ext subject body with
  | Raised (JSONDecodeError _) =>
      Raised (Exception "Invalid JSON response from LLM")
  | Raised e => Raised (Exception ("Classification error: " ++ exn_str e))
  | Returned result_data =>
      match ClassificationResult.new (raw_intent result_data)
              (raw_urgency result_data) (raw_confidence result_data)
              (raw_reasoning result_data) with
      | Returned classification => Returned classification
      | Raised e => Raised (Exception ("Classification error: " ++ exn_str e))
      end
  end.

(** ** Strings

    Text is modelled as a sequence of 8-bit characters. This is exact for
    ASCII text ([is_ascii]: every character code is below 128): there [len]
    is the number of characters, [str.lower] folds the letters A to Z and
    nothing else, and [str.strip] removes the characters 9 to 13 and 28 to
    32 and nothing else. On other text Python counts code points, and maps
    case and recognises white space by the Unicode tables, which are not
    modelled. A property that depends on the exact length, lower-cased form
    or stripped form of a text is therefore stated for ASCII text. *)

Fixpoint is_ascii (s : string) : bool :=
  match s with
  | EmptyString => true
  | String c r => Nat.ltb (nat_of_ascii c) 128 && is_ascii r
  end.

Definition ascii_lower (c : ascii) : ascii :=
  let n := nat_of_ascii c in
  if (Nat.leb 65 n && Nat.leb n 90)%bool then ascii_of_nat (n + 32) else c.

Fixpoint lower (s : string) : string :=
  match s with
  | EmptyString => EmptyString
  | String c r => String (ascii_lower c) (lower r)
  end.

(** [needle in hay]. *)
Fixpoint contains (needle hay : string) : bool :=
  String.prefix needle hay ||
  match hay with
  | EmptyString => false
  | String _ r => contains needle r
  end.

Definition is_space (c : ascii) : bool :=
  let n := nat_of_ascii c in
  (Nat.leb 9 n && Nat.leb n 13) || (Nat.leb 28 n && Nat.leb n 32).

Fixpoint lstrip (s : string) : string :=
  match s with
  | String c r => if is_space c then lstrip r else s
  | EmptyString => EmptyString
  end.

Fixpoint rstrip (s : string) : string :=
  match s with
  | EmptyString => EmptyString
  | String c r =>
      match rstrip r with
      | EmptyString => if is_space c then EmptyString else String c EmptyString
      | r' => String c r'
      end
  end.

Definition strip (s : string) : string := rstrip (lstrip s).

(** ** [ReplyGeneratorService], [app/services/reply_generator.py] *)

Definition unsafe_phrases : list string :=
  ["refund"; "guarantee"; "promise"; "will fix"; "by tomorrow";
   "compensation"; "credit"].

(** One turn of the loop over [unsafe_phrases]. *)
Definition penalize_phrase (reply : string) (confidence : float)
    (phrase : string) : float :=
  if contains (lower phrase) (lower reply)
  then PrimFloat.sub confidence 0.15
  else confidence.

Definition _calculate_confidence (reply intent urgency : string) : float :=
  let confidence := 0.85%float in
  let confidence :=
    if Nat.ltb (String.length reply) 50
    then PrimFloat.sub confidence 0.2 else confidence in
  let confidence := fold_left (penalize_phrase reply) unsafe_phrases confidence in
  let confidence :=
    if String.eqb urgency "critical"
    then PrimFloat.sub confidence 0.1 else confidence in
  PyFloat.max 0.0 (PyFloat.min 1.0 confidence).

(** [max(0.0, min(1.0, x))], the clamp that ends [_calculate_confidence]. *)
Definition clamp_unit (x : float) : float :=
  PyFloat.max 0.0 (PyFloat.min 1.0 x).

Definition generate_reply (ext : External) (subject body intent urgency : string)
    : outcome ReplyResult.t :=
  match llm_reply ext subject body intent urgency with
  | Raised e => Raised (Exception ("Reply generation error: " ++ exn_str e))
  | Returned content =>
      let reply_text := strip content in
      let confidence := _calculate_confidence reply_text intent urgency in
      match ReplyResult.new reply_text confidence with
      | Returned result => Returned result
      | Raised e => Raised (Exception ("Reply generation error: " ++ exn_str e))
      end
  end.

(** ** The [Ticket] row, [app/models/ticket.py]

    The three timestamp columns are filled by the clock and are left out. *)

Module Ticket.

Record t : Set := {
  id : option Z;
  source : string;
  customer_email : string;
  subject : string;
  body : string;
  intent : option IntentType;
  urgency : option UrgencyLevel;
  category : option string;
  confidence_score : option float;
  ai_reply : option string;
  final_reply : option string;
  assigned_team : option string;
  status : TicketStatus;
  feedback : option string;
  feedback_rating : option Z
}.

(** [Ticket(source=..., customer_email=..., subject=..., body=...,
    status=...)]: the other columns are [None] until assigned. *)
Definition new (source customer_email subject body : string)
    (status : TicketStatus) : t := {|
  id := None; source := source; customer_email := customer_email;
  subject := subject; body := body; intent := None; urgency := None;
  category := None; confidence_score := None; ai_reply := None;
  final_reply := None; assigned_team := None; status := status;
  feedback := None; feedback_rating := None
|}.

Definition set_id (v : option Z) (r : t) : t :=
  {| id := v; source := source r; customer_email := customer_email r;
     subject := subject r; body := body r; intent := intent r;
     urgency := urgency r; category := category r;
     confidence_score := confidence_score r; ai_reply := ai_reply r;
     final_reply := final_reply r; assigned_team := assigned_team r;
     status := status r; feedback := feedback r;
     feedback_rating := feedback_rating r |}.

Definition set_intent (v : option IntentType) (r : t) : t :=
  {| id := id r; source := source r; customer_email := customer_email r;
     subject := subject r; body := body r; intent := v;
     urgency := urgency r; category := category r;
     confidence_score := confidence_score r; ai_reply := ai_reply r;
     final_reply := final_reply r; assigned_team := assigned_team r;
     status := status r; feedback := feedback r;
     feedback_rating := feedback_rating r |}.

Definition set_urgency (v : option UrgencyLevel) (r : t) : t :=
  {| id := id r; source := source r; customer_email := customer_email r;
     subject := subject r; body := body r; intent := intent r;
     urgency := v; category := category r;
     confidence_score := confidence_score r; ai_reply := ai_reply r;
     final_reply := final_reply r; assigned_team := assigned_team r;
     status := status r; feedback := feedback r;
     feedback_rating := feedback_rating r |}.

Definition set_confidence_score (v : option float) (r : t) : t :=
  {| id := id r; source := source r; customer_email := customer_email r;
     subject := subject r; body := body r; intent := intent r;
     urgency := urgency r; category := category r;
     confidence_score := v; ai_reply := ai_reply r;
     final_reply := final_reply r; assigned_team := assigned_team r;
     status := status r; feedback := feedback r;
     feedback_rating := feedback_rating r |}.

Definition set_ai_reply (v : option string) (r : t) : t :=
  {| id := id r; source := source r; customer_email := customer_email r;
     subject := subject r; body := body r; intent := intent r;
     urgency := urgency r; category := category r;
     confidence_score := confidence_score r; ai_reply := v;
     final_reply := final_reply r; assigned_team := assigned_team r;
     status := status r; feedback := feedback r;
     feedback_rating := feedback_rating r |}.

Definition set_assigned_team (v : option string) (r : t) : t :=
  {| id := id r; source := source r; customer_email := customer_email r;
     subject := subject r; body := body r; intent := intent r;
     urgency := urgency r; category := category r;
     confidence_score := confidence_score r; ai_reply := ai_reply r;
     final_reply := final_reply r; assigned_team := v;
     status := status r; feedback := feedback r;
     feedback_rating := feedback_rating r |}.

Definition set_status (v : TicketStatus) (r : t) : t :=
  {| id := id r; source := source r; customer_email := customer_email r;
     subject := subject r; body := body r; intent := intent r;
     urgency := urgency r; category := category r;
     confidence_score := confidence_score r; ai_reply := ai_reply r;
     final_reply := final_reply r; assigned_team := assigned_team r;
     status := v; feedback := feedback r;
     feedback_rating := feedback_rating r |}.

End Ticket.

(** ** Filling in a ticket: state and exceptions

    A computation that assigns fields of the ticket under construction and
    may raise. The ticket is returned in both cases: what was assigned before
    an exception stays assigned. *)

Definition Proc (A : Type) : Type := Ticket.t -> Ticket.t * outcome A.

Definition ret {A} (a : A) : Proc A := fun ticket => (ticket, Returned a).

Definition bind {A B} (c : Proc A) (k : A -> Proc B) : Proc B :=
  fun ticket =>
    match c ticket with
    | (ticket', Returned a) => k a ticket'
    | (ticket', Raised e) => (ticket', Raised e)
    end.

(** A call that does not touch the ticket. *)
Definition call {A} (o : outcome A) : Proc A := fun ticket => (ticket, o).

(** [ticket.field = v]. *)
Definition assign (f : Ticket.t -> Ticket.t) : Proc unit :=
  fun ticket => (f ticket, Returned tt).

(** [ticket.field]. *)
Definition read {A} (f : Ticket.t -> A) : Proc A :=
  fun ticket => (ticket, Returned (f ticket)).

Notation "'let!' x ':=' c 'in' k" := (bind c (fun x => k))
  (at level 10, x name, c at level 100, k at level 200).
Notation "'do!' c 'in' k" := (bind c (fun _ => k))
  (at level 10, c at level 100, k at level 200).

(** ** The ticket endpoints, [app/api/tickets.py] *)

(** The database: the [tickets] table keyed by its primary key, and the
    next key the sequence hands out. *)
Record Db : Set := {
  rows : gmap Z Ticket.t;
  next_id : Z
}.

(** Flushing one added row: it receives the next key. *)
Definition insert_row (db : Db) (ticket : Ticket.t) : Db := {|
  rows := <[next_id db := Ticket.set_id (Some (next_id db)) ticket]> (rows db);
  next_id := next_id db + 1
|}.

(** [db.commit()] with the rows passed to [db.add] since the last commit, in
    the order they were added. *)
Definition commit (added : list Ticket.t) (db : Db) : Db :=
  fold_left insert_row added db.

(** [db.query(Ticket).filter(Ticket.id == ticket_id).first()]. *)
Definition query_first (db : Db) (ticket_id : Z) : option Ticket.t :=
  rows db !! ticket_id.

(** The body of the inner [try] of [ingest_tickets]. Comparing a missing
    confidence with the threshold would be a type error. *)
Definition ingest_try_body (ext : External) (cfg : Settings)
    (ticket_data : TicketCreate.t) : Proc unit :=
  let! classification :=
    call (classify_ticket ext (TicketCreate.subject ticket_data)
            (TicketCreate.body ticket_data)) in
  do! assign (Ticket.set_intent
                (Some (ClassificationResult.intent classification))) in
  do! assign (Ticket.set_urgency
                (Some (ClassificationResult.urgency classification))) in
  do! assign (Ticket.set_confidence_score
                (Some (ClassificationResult.confidence classification))) in
  let! reply_result :=
    call (generate_reply ext (TicketCreate.subject ticket_data)
            (TicketCreate.body ticket_data)
            (IntentType_value (ClassificationResult.intent classification))
            (UrgencyLevel_value (ClassificationResult.urgency classification))) in
  do! assign (Ticket.set_ai_reply (Some (ReplyResult.reply reply_result))) in
  do! assign (Ticket.set_confidence_score
                (Some (PyFloat.min (ClassificationResult.confidence classification)
                         (ReplyResult.confidence reply_result)))) in
  do! assign (Ticket.set_assigned_team
                (Some (RouterService.route_ticket router_service
                         (ClassificationResult.intent classification)
                         (ClassificationResult.urgency classification)))) in
  let! score := read Ticket.confidence_score in
  match score with
  | None => call (Raised (TypeError "'<' not supported"))
  | Some confidence_score =>
      if RouterService.should_escalate cfg confidence_score
           (ClassificationResult.urgency classification)
      then assign (Ticket.set_status ESCALATED)
      else ret tt
  end.

(** One turn of the loop of [ingest_tickets], up to [db.add(ticket)]: the
    ticket is created, the [try] body runs on it, and the handler marks the
    ticket as escalated if the body raised. *)
Definition ingest_ticket (ext : External) (cfg : Settings)
    (ticket_data : TicketCreate.t) : Ticket.t :=
  let ticket :=
    Ticket.new (TicketCreate.source ticket_data)
      (TicketCreate.customer_email ticket_data)
      (TicketCreate.subject ticket_data) (TicketCreate.body ticket_data)
      PENDING_REVIEW in
  match ingest_try_body ext cfg ticket_data ticket with
  | (ticket, Returned _) => ticket
  | (ticket, Raised _) => Ticket.set_status ESCALATED ticket
  end.

(** The loop state: the rows added to the session and [processed_count]. *)
Definition ingest_step (ext : External) (cfg : Settings)
    (st : list Ticket.t * Z) (ticket_data : TicketCreate.t)
    : list Ticket.t * Z :=
  ((st.1 ++ [ingest_ticket ext cfg ticket_data])%list, (st.2 + 1)%Z).

Definition ingest_loop (ext : External) (cfg : Settings)
    (ticket_data_list : list TicketCreate.t) : list Ticket.t * Z :=
  fold_left (ingest_step ext cfg) ticket_data_list ([], 0%Z).

Record IngestResponse : Set := {
  message : string;
  processed : Z
}.

Definition ingest_tickets (ext : External) (cfg : Settings) (db : Db)
    : Db * outcome IngestResponse :=
  let ticket_data_list := fetch_unread_emails ext 10 in
  match ticket_data_list with
  | [] => (db, Returned {| message := "No new emails found"; processed := 0 |})
  | _ =>
      let '(added, processed_count) := ingest_loop ext cfg ticket_data_list in
      (commit added db,
       Returned {| message := "Processed " ++ pretty processed_count ++ " tickets";
                   processed := processed_count |})
  end.

(** The text an f-string puts for a nullable text column. *)
Definition format_optional (v : option string) : string :=
  match v with Some s => s | None => "None" end.

Definition escalate_ticket (ticket_id : Z) (db : Db) : Db * outcome Ticket.t :=
  match query_first db ticket_id with
  | None => (db, Raised (HTTPException 404 "Ticket not found"))
  | Some ticket =>
      let ticket := Ticket.set_status ESCALATED ticket in
      let ticket :=
        Ticket.set_assigned_team
          (Some (format_optional (Ticket.assigned_team ticket) ++ " - ESCALATED"))
          ticket in
      ({| rows := <[ticket_id := ticket]> (rows db); next_id := next_id db |},
       Returned ticket)
  end.

(** Number of places at which [needle] occurs in [hay]. *)
Fixpoint count_occurrences (needle hay : string) : nat :=
  (if String.prefix needle hay then 1 else 0) +
  match hay with
  | EmptyString => 0
  | String _ r => count_occurrences needle r
  end.

(** [hay.endswith(suffix)]. *)
Fixpoint ends_with (suffix hay : string) : bool :=
  String.eqb suffix hay ||
  match hay with
  | EmptyString => false
  | String _ r => ends_with suffix r
  end.

(** ** Concrete inputs used by the examples *)

(** A table without an entry for billing: the default team is used. *)
Definition router_without_billing : RouterService.t := {|
  RouterService.INTENT_TEAM_MAP :=
    delete BILLING (RouterService.INTENT_TEAM_MAP router_service);
  RouterService.SLA_HOURS := RouterService.SLA_HOURS router_service
|}.

(** A configuration in which the operator has retuned the SLA hours. *)
Definition retuned_settings : Settings := {|
  auto_send_threshold := 0.8;
  escalation_threshold := 0.6;
  sla_low := 72;
  sla_medium := 36;
  sla_high := 12;
  sla_critical := 4
|}.

(** The SLA hours a configuration names for an urgency. *)
Definition configured_sla (cfg : Settings) (urgency : UrgencyLevel) : Z :=
  match urgency with
  | LOW => sla_low cfg
  | MEDIUM => sla_medium cfg
  | HIGH => sla_high cfg
  | CRITICAL => sla_critical cfg
  end.

(** The configuration with another auto-send threshold. *)
Definition with_auto_send_threshold (threshold : float) (cfg : Settings)
    : Settings := {|
  auto_send_threshold := threshold;
  escalation_threshold := escalation_threshold cfg;
  sla_low := sla_low cfg;
  sla_medium := sla_medium cfg;
  sla_high := sla_high cfg;
  sla_critical := sla_critical cfg
|}.

Definition with_escalation_threshold (threshold : float) (cfg : Settings)
    : Settings := {|
  auto_send_threshold := auto_send_threshold cfg;
  escalation_threshold := threshold;
  sla_low := sla_low cfg;
  sla_medium := sla_medium cfg;
  sla_high := sla_high cfg;
  sla_critical := sla_critical cfg
|}.

(** The ticket as the loop of [ingest_tickets] creates it. *)
Definition fresh_ticket (ticket_data : TicketCreate.t) : Ticket.t :=
  Ticket.new (TicketCreate.source ticket_data)
    (TicketCreate.customer_email ticket_data)
    (TicketCreate.subject ticket_data) (TicketCreate.body ticket_data)
    PENDING_REVIEW.

(** Whether the [try] body of the loop raises for an email. *)
Definition processing_raises (ext : External) (cfg : Settings)
    (ticket_data : TicketCreate.t) : bool :=
  has_raised (ingest_try_body ext cfg ticket_data (fresh_ticket ticket_data)).2.

Definition mail (subject : string) : TicketCreate.t := {|
  TicketCreate.customer_email := "customer@example.com";
  TicketCreate.subject := subject;
  TicketCreate.body := "Please look at my last invoice.";
  TicketCreate.source := "gmail"
|}.

Definition safe_reply : string :=
  "Thank you for contacting us. We are looking into your invoice now.".

(** A billing question of low urgency, classified with confidence 0.9 and
    answered by a reply that incurs no penalty; the mails with subject
    "garbled" and "silent" make the classification and the reply generation
    fail. *)
Definition sample_external : External := {|
  llm_classify := fun subject _ =>
    if String.eqb subject "garbled"
    then Raised (JSONDecodeError "Expecting value")
    else Returned {| raw_intent := "billing"; raw_urgency := "low";
                     raw_confidence := 0.9; raw_reasoning := None |};
  llm_reply := fun subject _ _ _ =>
    if String.eqb subject "silent"
    then Raised (Exception "connection reset")
    else Returned safe_reply;
  fetch_unread_emails := fun _ => [mail "invoice"; mail "garbled"; mail "silent"]
|}.

Definition empty_db : Db := {| rows := ∅; next_id := 1 |}.

(** A database holding one ticket that was routed with critical urgency. *)
Definition critical_ticket : Ticket.t :=
  Ticket.set_id (Some 7%Z)
    (Ticket.set_assigned_team
       (Some (RouterService.route_ticket router_service TECHNICAL_ISSUE CRITICAL))
       (fresh_ticket (mail "outage"))).

Definition critical_db : Db := {|
  rows := {[ 7%Z := critical_ticket ]};
  next_id := 8
|}.

(** A classifier that reports a confidence of 1.5. *)
Definition overconfident_external : External := {|
  llm_classify := fun _ _ =>
    Returned {| raw_intent := "billing"; raw_urgency := "low";
                raw_confidence := 1.5; raw_reasoning := None |};
  llm_reply := fun _ _ _ _ => Returned safe_reply;
  fetch_unread_emails := fun _ => [mail "invoice"]
|}.

(** ** The remaining ticket endpoints, [app/api/tickets.py] *)

Definition set_final_reply (v : option string) (r : Ticket.t) : Ticket.t :=
  {| Ticket.id := Ticket.id r; Ticket.source := Ticket.source r;
     Ticket.customer_email := Ticket.customer_email r;
     Ticket.subject := Ticket.subject r; Ticket.body := Ticket.body r;
     Ticket.intent := Ticket.intent r; Ticket.urgency := Ticket.urgency r;
     Ticket.category := Ticket.category r;
     Ticket.confidence_score := Ticket.confidence_score r;
     Ticket.ai_reply := Ticket.ai_reply r; Ticket.final_reply := v;
     Ticket.assigned_team := Ticket.assigned_team r;
     Ticket.status := Ticket.status r; Ticket.feedback := Ticket.feedback r;
     Ticket.feedback_rating := Ticket.feedback_rating r |}.

Definition set_feedback (v : option string) (r : Ticket.t) : Ticket.t :=
  {| Ticket.id := Ticket.id r; Ticket.source := Ticket.source r;
     Ticket.customer_email := Ticket.customer_email r;
     Ticket.subject := Ticket.subject r; Ticket.body := Ticket.body r;
     Ticket.intent := Ticket.intent r; Ticket.urgency := Ticket.urgency r;
     Ticket.category := Ticket.category r;
     Ticket.confidence_score := Ticket.confidence_score r;
     Ticket.ai_reply := Ticket.ai_reply r;
     Ticket.final_reply := Ticket.final_reply r;
     Ticket.assigned_team := Ticket.assigned_team r;
     Ticket.status := Ticket.status r; Ticket.feedback := v;
     Ticket.feedback_rating := Ticket.feedback_rating r |}.

Definition set_feedback_rating (v : option Z) (r : Ticket.t) : Ticket.t :=
  {| Ticket.id := Ticket.id r; Ticket.source := Ticket.source r;
     Ticket.customer_email := Ticket.customer_email r;
     Ticket.subject := Ticket.subject r; Ticket.body := Ticket.body r;
     Ticket.intent := Ticket.intent r; Ticket.urgency := Ticket.urgency r;
     Ticket.category := Ticket.category r;
     Ticket.confidence_score := Ticket.confidence_score r;
     Ticket.ai_reply := Ticket.ai_reply r;
     Ticket.final_reply := Ticket.final_reply r;
     Ticket.assigned_team := Ticket.assigned_team r;
     Ticket.status := Ticket.status r; Ticket.feedback := Ticket.feedback r;
     Ticket.feedback_rating := v |}.

(** The row stored under a key, replaced. *)
Definition update_row (ticket_id : Z) (ticket : Ticket.t) (db : Db) : Db :=
  {| rows := <[ticket_id := ticket]> (rows db); next_id := next_id db |}.

(** The body of the [try] of [create_manual_ticket]: as in the ingestion,
    without the reply confidence and without the escalation check. *)
Definition manual_try_body (ext : External) (ticket_data : TicketCreate.t)
    : Proc unit :=
  let! classification :=
    call (classify_ticket ext (TicketCreate.subject ticket_data)
            (TicketCreate.body ticket_data)) in
  do! assign (Ticket.set_intent
                (Some (ClassificationResult.intent classification))) in
  do! assign (Ticket.set_urgency
                (Some (ClassificationResult.urgency classification))) in
  do! assign (Ticket.set_confidence_score
                (Some (ClassificationResult.confidence classification))) in
  let! reply_result :=
    call (generate_reply ext (TicketCreate.subject ticket_data)
            (TicketCreate.body ticket_data)
            (IntentType_value (ClassificationResult.intent classification))
            (UrgencyLevel_value (ClassificationResult.urgency classification))) in
  do! assign (Ticket.set_ai_reply (Some (ReplyResult.reply reply_result))) in
  assign (Ticket.set_assigned_team
            (Some (RouterService.route_ticket router_service
                     (ClassificationResult.intent classification)
                     (ClassificationResult.urgency classification)))).

(** The ticket of [create_manual_ticket] as it is passed to [db.add]. *)
Definition manual_ticket (ext : External) (ticket_data : TicketCreate.t)
    : Ticket.t :=
  let ticket :=
    Ticket.new (TicketCreate.source ticket_data)
      (TicketCreate.customer_email ticket_data)
      (TicketCreate.subject ticket_data) (TicketCreate.body ticket_data)
      PENDING_REVIEW in
  match manual_try_body ext ticket_data ticket with
  | (ticket, Returned _) => ticket
  | (ticket, Raised _) => Ticket.set_status ESCALATED ticket
  end.

(** [db.add], [db.commit], [db.refresh]: the returned ticket carries the key
    it was stored under. *)
Definition create_manual_ticket (ext : External) (ticket_data : TicketCreate.t)
    (db : Db) : Db * outcome Ticket.t :=
  let ticket := manual_ticket ext ticket_data in
  (commit [ticket] db, Returned (Ticket.set_id (Some (next_id db)) ticket)).

Definition get_ticket (ticket_id : Z) (db : Db) : outcome Ticket.t :=
  match query_first db ticket_id with
  | None => Raised (HTTPException 404 "Ticket not found")
  | Some ticket => Returned ticket
  end.

(** *** Sending mail, [GmailService.send_email]

    The mail provider is outside the program: whether an authentication
    succeeds and whether the provider accepts a message are taken as given.
    A message is kept as its recipient, subject and text; its MIME and
    base64 encoding are part of the call to the provider. *)

Record Message : Set := {
  msg_to : string;
  msg_subject : string;
  msg_body : string
}.

Record MailProvider : Type := {
  provider_authenticate : bool;
  provider_send : Message -> outcome unit
}.

(** The state of the service object: whether [self.service] is set, and the
    messages the provider has accepted so far. *)
Record GmailService : Set := {
  service : bool;
  sent : list Message
}.

Definition send_email (provider : MailProvider) (self : GmailService)
    (to subject body : string) : GmailService * bool :=
  let ready :=
    if service self then Some self
    else if provider_authenticate provider
         then Some {| service := true; sent := sent self |}
         else None in
  match ready with
  | None => (self, false)
  | Some self =>
      let message :=
        {| msg_to := to; msg_subject := "Re: " ++ subject; msg_body := body |} in
      match provider_send provider message with
      | Returned _ =>
          ({| service := service self; sent := (sent self ++ [message])%list |},
           true)
      | Raised _ => (self, false)
      end
  end.

(** [a or b] on two optional texts: [a] unless it is [None] or empty. *)
Definition or_else (a b : option string) : option string :=
  match a with
  | Some EmptyString | None => b
  | Some _ => a
  end.

Module TicketApprove.

Record t : Set := {
  edited_reply : option string
}.

End TicketApprove.

(** [resolved_at] is one of the timestamp columns that are left out. *)
Definition approve_ticket (provider : MailProvider) (ticket_id : Z)
    (approve_data : TicketApprove.t) (st : GmailService * Db)
    : (GmailService * Db) * outcome Ticket.t :=
  let '(gmail, db) := st in
  match query_first db ticket_id with
  | None => (st, Raised (HTTPException 404 "Ticket not found"))
  | Some ticket =>
      match or_else (TicketApprove.edited_reply approve_data)
              (Ticket.ai_reply ticket) with
      | None | Some EmptyString =>
          (st, Raised (HTTPException 400 "No reply to send"))
      | Some final_reply =>
          let '(gmail, success) :=
            send_email provider gmail (Ticket.customer_email ticket)
              (Ticket.subject ticket) final_reply in
          if success then
            let ticket := set_final_reply (Some final_reply) ticket in
            let ticket := Ticket.set_status SENT ticket in
            ((gmail, update_row ticket_id ticket db), Returned ticket)
          else ((gmail, db), Raised (HTTPException 500 "Failed to send email"))
      end
  end.

Module TicketFeedback.

Record t : Set := {
  feedback : string;
  rating : Z
}.

(** [rating: int = Field(ge=1, le=5)]. *)
Definition new (feedback : string) (rating : Z) : outcome t :=
  if (1 <=? rating)%Z && (rating <=? 5)%Z
  then Returned {| feedback := feedback; rating := rating |}
  else Raised (ValidationError "rating").

End TicketFeedback.

Definition submit_feedback (ticket_id : Z) (feedback_data : TicketFeedback.t)
    (db : Db) : Db * outcome Ticket.t :=
  match query_first db ticket_id with
  | None => (db, Raised (HTTPException 404 "Ticket not found"))
  | Some ticket =>
      let ticket :=
        set_feedback (Some (TicketFeedback.feedback feedback_data)) ticket in
      let ticket :=
        set_feedback_rating (Some (TicketFeedback.rating feedback_data)) ticket in
      (update_row ticket_id ticket db, Returned ticket)
  end.

Definition delete_ticket (ticket_id : Z) (db : Db) : Db * outcome string :=
  match query_first db ticket_id with
  | None => (db, Raised (HTTPException 404 "Ticket not found"))
  | Some _ =>
      ({| rows := delete ticket_id (rows db); next_id := next_id db |},
       Returned "Ticket deleted")
  end.

(** An outage report: classified as a critical technical issue with
    confidence 0.99. *)
Definition outage_external : External := {|
  llm_classify := fun _ _ =>
    Returned {| raw_intent := "technical_issue"; raw_urgency := "critical";
                raw_confidence := 0.99; raw_reasoning := None |};
  llm_reply := fun _ _ _ _ => Returned safe_reply;
  fetch_unread_emails := fun _ => [mail "outage"]
|}.

(** A provider that authenticates and accepts every message, and a service
    object that has not authenticated yet. *)
Definition accepting_provider : MailProvider := {|
  provider_authenticate := true;
  provider_send := fun _ => Returned tt
|}.

Definition new_gmail_service : GmailService := {| service := false; sent := [] |}.

(** The database after the sample batch has been ingested. *)
Definition sample_db : Db :=
  (ingest_tickets sample_external settings empty_db).1.

(** The unsafe phrases that the loop of [_calculate_confidence] finds in a
    reply. *)
Definition matched_phrases (reply : string) : list string :=
  List.filter (fun phrase => contains (lower phrase) (lower reply))
    unsafe_phrases.

(** Whether the heuristic subtracts anything for a reply. *)
Definition penalised (reply urgency : string) : bool :=
  Nat.ltb (String.length reply) 50 ||
  negb (Nat.eqb (length (matched_phrases reply)) 0) ||
  String.eqb urgency "critical".

Definition starts_with_space (s : string) : bool :=
  match s with
  | String c _ => is_space c
  | EmptyString => false
  end.

Fixpoint ends_with_space (s : string) : bool :=
  match s with
  | EmptyString => false
  | String c EmptyString => is_space c
  | String _ r => ends_with_space r
  end.

(** ** The dashboard, [dashboard/app.py] *)

Definition get_confidence_class (confidence : float) : string :=
  if PyFloat.ge confidence 0.8 then "confidence-high"
  else if PyFloat.ge confidence 0.6 then "confidence-medium"
  else "confidence-low".

(** The confidence line of [display_ticket]: it is written only when the
    score is truthy, that is present and not zero. *)
Definition displayed_confidence_class (confidence_score : option float)
    : option string :=
  match confidence_score with
  | None => None
  | Some confidence =>
      if PrimFloat.eqb confidence 0 then None
      else Some (get_confidence_class confidence)
  end.

(** ** Fetching mail, [GmailService.fetch_unread_emails]

    A failure inside the [try] of [fetch_unread_emails] is caught there
    whatever its class, so a step that can raise is given an optional
    result, [None] standing for an exception. Resources returned by the
    provider are taken to be well typed. In a message part the keys
    [mimeType] and [body] may be absent, which is an exception where the
    code reads them with [[...]]. *)

Module Gmail.

(** [s.split(sep)] for a one-character separator. *)
Fixpoint split_on (sep : ascii) (s : string) : list string :=
  match s with
  | EmptyString => [EmptyString]
  | String c r =>
      if Ascii.eqb c sep then EmptyString :: split_on sep r
      else match split_on sep r with
           | first :: rest => String c first :: rest
           | [] => [String c EmptyString]
           end
  end.

(** The address taken out of a [From] header of the form [Name <address>]. *)
Definition sender_address (from_email : string) : option string :=
  if contains "<" from_email && contains ">" from_email then
    match split_on "<" from_email !! 1 with
    | None => None
    | Some after => split_on ">" after !! 0
    end
  else Some from_email.

Record Header : Set := {
  name : string;
  value : string
}.

(** [next((h['value'] for h in headers if h['name'] == wanted), fallback)]. *)
Definition header_value (wanted fallback : string) (headers : list Header)
    : string :=
  match List.find (fun h => String.eqb (name h) wanted) headers with
  | Some h => value h
  | None => fallback
  end.

(** The [body] resource of a message part; its [data] key may be absent. *)
Record PartBody : Set := {
  data : option string
}.

Record MessagePart : Set := {
  mimeType : option string;
  part_body : option PartBody
}.

Record Payload : Set := {
  headers : list Header;
  parts : option (list MessagePart);
  body : option PartBody
}.

(** What the program cannot compute by itself. [list_unread] is the list call
    followed by [results.get('messages', [])] and the reading of the [id] of
    each entry; [get_message] is the get call followed by the reading of
    [msg['payload']] and its [headers]; [decode] is
    [base64.urlsafe_b64decode(data).decode('utf-8')]; [validate_email] is
    the validation of an [EmailStr], done by pydantic and the email-validator
    package: it refuses the text ([None], a validation error) or gives the
    normalised address, which is the value that the field then holds and
    need not be the text that was passed. *)
Record Environment : Type := {
  authenticate : bool;
  list_unread : Z -> option (list string);
  get_message : string -> option Payload;
  decode : string -> option string;
  validate_email : string -> option string
}.

(** [part_body.get('data', '')] followed by [if data:]. *)
Definition truthy_data (b : PartBody) : option string :=
  match data b with
  | Some EmptyString | None => None
  | Some d => Some d
  end.

Fixpoint first_plain_text (env : Environment) (parts : list MessagePart)
    : option string :=
  match parts with
  | [] => Some EmptyString
  | part :: rest =>
      match mimeType part with
      | None => None
      | Some mime =>
          if String.eqb mime "text/plain" then
            match part_body part with
            | None => None
            | Some b =>
                match truthy_data b with
                | Some d => decode env d
                | None => first_plain_text env rest
                end
            end
          else first_plain_text env rest
      end
  end.

Definition _get_email_body (env : Environment) (payload : Payload)
    : option string :=
  match parts payload with
  | Some parts => first_plain_text env parts
  | None =>
      match body payload with
      | Some b =>
          match truthy_data b with
          | Some d => decode env d
          | None => Some EmptyString
          end
      | None => Some EmptyString
      end
  end.

(** One turn of the loop: the ticket request made from a message. The
    [customer_email] of the request is the address as validation returns
    it. *)
Definition message_to_ticket (env : Environment) (message_id : string)
    : option TicketCreate.t :=
  match get_message env message_id with
  | None => None
  | Some payload =>
      let subject := header_value "Subject" "No Subject" (headers payload) in
      let from_email := header_value "From" "" (headers payload) in
      match sender_address from_email with
      | None => None
      | Some from_email =>
          match _get_email_body env payload with
          | None => None
          | Some body =>
              match validate_email env from_email with
              | Some customer_email =>
                  Some {| TicketCreate.customer_email := customer_email;
                          TicketCreate.subject := subject;
                          TicketCreate.body := body;
                          TicketCreate.source := "gmail" |}
              | None => None
              end
          end
      end
  end.

Fixpoint fetch_loop (env : Environment) (messages : list string)
    (tickets : list TicketCreate.t) : option (list TicketCreate.t) :=
  match messages with
  | [] => Some tickets
  | message_id :: rest =>
      match message_to_ticket env message_id with
      | None => None
      | Some ticket => fetch_loop env rest (tickets ++ [ticket])%list
      end
  end.

Definition fetch_unread_emails (env : Environment) (self : GmailService)
    (max_results : Z) : GmailService * list TicketCreate.t :=
  let ready :=
    if service self then Some self
    else if authenticate env
         then Some {| service := true; sent := sent self |}
         else None in
  match ready with
  | None => (self, [])
  | Some self =>
      match list_unread env max_results with
      | None => (self, [])
      | Some messages =>
          match fetch_loop env messages [] with
          | Some tickets => (self, tickets)
          | None => (self, [])
          end
      end
  end.

End Gmail.

(** The external services of the ingestion with the mail fetch above. *)
Definition with_mailbox (ext : External) (env : Gmail.Environment)
    (gmail : GmailService) : External := {|
  llm_classify := llm_classify ext;
  llm_reply := llm_reply ext;
  fetch_unread_emails := fun max_results =>
    (Gmail.fetch_unread_emails env gmail max_results).2
|}.

(** A mailbox with two unread messages: a plain one, and one that has an
    HTML part only and a sender whose address does not validate. Validation
    in this mailbox accepts [local@domain] and puts the domain in lower
    case. *)
Definition plain_message : Gmail.Payload := {|
  Gmail.headers :=
    [{| Gmail.name := "From"; Gmail.value := "Ann Lee <Ann@EXAMPLE.COM>" |};
     {| Gmail.name := "Subject"; Gmail.value := "invoice" |}];
  Gmail.parts := None;
  Gmail.body := Some {| Gmail.data := Some "UGxlYXNlIGhlbHAu" |}
|}.

Definition html_message : Gmail.Payload := {|
  Gmail.headers := [{| Gmail.name := "From"; Gmail.value := "nobody" |}];
  Gmail.parts :=
    Some [{| Gmail.mimeType := Some "text/html";
             Gmail.part_body := Some {| Gmail.data := Some "PGI+SGk8L2I+" |} |}];
  Gmail.body := Some {| Gmail.data := Some "UGxlYXNlIGhlbHAu" |}
|}.

Definition sample_mailbox (unread : list string) : Gmail.Environment := {|
  Gmail.authenticate := true;
  Gmail.list_unread := fun _ => Some unread;
  Gmail.get_message := fun message_id =>
    if String.eqb message_id "m1" then Some plain_message
    else if String.eqb message_id "m2" then Some html_message
    else None;
  Gmail.decode := fun d =>
    if String.eqb d "UGxlYXNlIGhlbHAu" then Some "Please help." else None;
  Gmail.validate_email := fun address =>
    match Gmail.split_on "@" address with
    | [local; domain] => Some (local ++ "@" ++ lower domain)
    | _ => None
    end
|}.

(** A part that the loop of [_get_email_body] passes over without raising:
    it has a type, and if that is text/plain it has a body without data. *)
Definition no_plain_text (part : Gmail.MessagePart) : Prop :=
  exists mime,
    Gmail.mimeType part = Some mime /\
    (mime = "text/plain" ->
     exists b, Gmail.part_body part = Some b /\ Gmail.truthy_data b = None).

(** ** The databases that the endpoints can produce

    Starting from the empty database, any sequence of calls of the
    endpoints, with any behaviour of the external services. A feedback
    request has passed its schema. *)

Inductive reachable : Db -> Prop :=
  | reach_empty : reachable empty_db
  | reach_create ext ticket_data db :
      reachable db -> reachable (create_manual_ticket ext ticket_data db).1
  | reach_ingest ext cfg db :
      reachable db -> reachable (ingest_tickets ext cfg db).1
  | reach_escalate ticket_id db :
      reachable db -> reachable (escalate_ticket ticket_id db).1
  | reach_approve provider ticket_id approve_data gmail db :
      reachable db ->
      reachable (approve_ticket provider ticket_id approve_data (gmail, db)).1.2
  | reach_feedback ticket_id feedback rating feedback_data db :
      TicketFeedback.new feedback rating = Returned feedback_data ->
      reachable db -> reachable (submit_feedback ticket_id feedback_data db).1
  | reach_delete ticket_id db :
      reachable db -> reachable (delete_ticket ticket_id db).1.

(** What holds of every stored ticket. *)
Record well_formed (ticket : Ticket.t) : Prop := {
  wf_status :
    Ticket.status ticket = PENDING_REVIEW \/ Ticket.status ticket = SENT \/
    Ticket.status ticket = ESCALATED;
  wf_sent :
    Ticket.status ticket = SENT ->
    exists reply, Ticket.final_reply ticket = Some reply /\ reply <> "";
  wf_confidence :
    forall confidence, Ticket.confidence_score ticket = Some confidence ->
    Field_ge0_le1 confidence = true;
  wf_rating :
    forall rating, Ticket.feedback_rating ticket = Some rating ->
    (1 <= rating <= 5)%Z;
  wf_category : Ticket.category ticket = None
}.

Definition db_invariant (db : Db) : Prop :=
  forall k ticket,
    query_first db k = Some ticket ->
    Ticket.id ticket = Some k /\ (1 <= k < next_id db)%Z /\ well_formed ticket.

(** ** Order facts on binary64 numbers

    The primitive comparisons are specified by comparisons on [spec_float];
    those are a lexicographic comparison of sign, exponent and mantissa. *)

Ltac sf_cases :=
  repeat match goal with
  | x : spec_float |- _ => destruct x as [[]|[]| |[] ? ?]
  end;
  unfold SFleb, SFltb, SFcompare;
  repeat match goal with
  | |- context [Z.compare ?a ?b] => destruct (Z.compare_spec a b)
  | |- context [Pos.compare_cont Eq ?a ?b] =>
      change (Pos.compare_cont Eq a b) with (Pos.compare a b);
      destruct (Pos.compare_spec a b)
  end;
  try reflexivity; try discriminate; try (intros; exfalso; lia).

Lemma SFleb_ltb_trans (a b c : spec_float) :
  SFleb a b = true -> SFltb b c = true -> SFltb a c = true.
Proof. sf_cases. Qed.

Lemma SFleb_trans (a b c : spec_float) :
  SFleb a b = true -> SFleb b c = true -> SFleb a c = true.
Proof. sf_cases. Qed.

Lemma SFltb_false_leb (a b : spec_float) :
  SFltb a b = false -> SFleb a a = true -> SFleb b b = true ->
  SFleb b a = true.
Proof. sf_cases. Qed.

Lemma SFltb_leb_excl (a b : spec_float) :
  SFltb a b = true -> SFleb b a = false.
Proof. sf_cases. Qed.

Lemma SFleb_refl_l (a b : spec_float) : SFleb a b = true -> SFleb a a = true.
Proof. sf_cases. Qed.

Lemma SFleb_refl_r (a b : spec_float) : SFleb a b = true -> SFleb b b = true.
Proof. sf_cases. Qed.

Lemma SFltb_irrefl (a : spec_float) : SFltb a a = false.
Proof. sf_cases. Qed.

Section FloatOrder.

Implicit Types x y z : float.

Lemma le_lt_trans x y z :
  PyFloat.le x y = true -> PyFloat.lt y z = true -> PyFloat.lt x z = true.
Proof.
  unfold PyFloat.le, PyFloat.lt. rewrite !leb_spec, !ltb_spec.
  apply SFleb_ltb_trans.
Qed.

Lemma le_trans x y z :
  PyFloat.le x y = true -> PyFloat.le y z = true -> PyFloat.le x z = true.
Proof.
  unfold PyFloat.le. rewrite !leb_spec. apply SFleb_trans.
Qed.

Lemma not_lt_le x y :
  PyFloat.lt x y = false -> PyFloat.is_number x = true ->
  PyFloat.is_number y = true -> PyFloat.le y x = true.
Proof.
  unfold PyFloat.is_number, PyFloat.le, PyFloat.lt.
  rewrite !leb_spec, !ltb_spec. apply SFltb_false_leb.
Qed.

Lemma lt_not_ge x y : PyFloat.lt x y = true -> PyFloat.ge x y = false.
Proof.
  unfold PyFloat.ge, PyFloat.lt. rewrite !leb_spec, !ltb_spec.
  apply SFltb_leb_excl.
Qed.

Lemma lt_irrefl x : PyFloat.lt x x = false.
Proof. unfold PyFloat.lt. rewrite ltb_spec. apply SFltb_irrefl. Qed.

Lemma le_is_number_l x y : PyFloat.le x y = true -> PyFloat.is_number x = true.
Proof.
  unfold PyFloat.is_number, PyFloat.le. rewrite !leb_spec. apply SFleb_refl_l.
Qed.

Lemma le_is_number_r x y : PyFloat.le x y = true -> PyFloat.is_number y = true.
Proof.
  unfold PyFloat.is_number, PyFloat.le. rewrite !leb_spec. apply SFleb_refl_r.
Qed.

End FloatOrder.

(** ** The auto-send and escalation policies *)

Lemma urgency_in_critical_high (u : UrgencyLevel) :
  bool_decide (u ∈ [CRITICAL; HIGH]) =
  match u with HIGH | CRITICAL => true | _ => false end.
Proof. destruct u; vm_compute; reflexivity. Qed.

(** C2. [should_auto_send] is false for high and critical urgency whatever the
    confidence; for low and medium urgency it is true exactly when
    [confidence >= auto_send_threshold], so a confidence strictly below the
    threshold gives false, a confidence equal to the threshold 0.8 gives
    true and 0.79999 gives false. *)
Theorem should_auto_send_policy (cfg : Settings) (confidence : float) :
  RouterService.should_auto_send cfg confidence HIGH = false /\
  RouterService.should_auto_send cfg confidence CRITICAL = false /\
  (forall urgency, urgency = LOW \/ urgency = MEDIUM ->
     (RouterService.should_auto_send cfg confidence urgency = true <->
      PyFloat.ge confidence (auto_send_threshold cfg) = true) /\
     (PyFloat.lt confidence (auto_send_threshold cfg) = true ->
      RouterService.should_auto_send cfg confidence urgency = false) /\
     (PyFloat.is_number (auto_send_threshold cfg) = true ->
      RouterService.should_auto_send cfg (auto_send_threshold cfg) urgency =
        true)) /\
  RouterService.should_auto_send settings 0.8 LOW = true /\
  RouterService.should_auto_send settings 0.79999 LOW = false.
Proof.
  unfold RouterService.should_auto_send.
  repeat split; try (vm_compute; reflexivity).
  - destruct H as [-> | ->]; rewrite urgency_in_critical_high;
      destruct (PyFloat.ge _ _); congruence.
  - destruct H as [-> | ->]; rewrite urgency_in_critical_high;
      intros ->; reflexivity.
  - intros Hlt. apply lt_not_ge in Hlt.
    destruct H as [-> | ->]; rewrite urgency_in_critical_high, Hlt; reflexivity.
  - unfold PyFloat.is_number, PyFloat.ge, PyFloat.le. intros Hnum.
    destruct H as [-> | ->]; rewrite urgency_in_critical_high, Hnum; reflexivity.
Qed.

(** C3. [should_escalate] is true for critical urgency whatever the
    confidence; for every other urgency it is true exactly when
    [confidence < escalation_threshold], so a confidence equal to the
    threshold does not escalate. *)
Theorem should_escalate_policy (cfg : Settings) (confidence : float) :
  RouterService.should_escalate cfg confidence CRITICAL = true /\
  (forall urgency, urgency <> CRITICAL ->
     (RouterService.should_escalate cfg confidence urgency = true <->
      PyFloat.lt confidence (escalation_threshold cfg) = true) /\
     (confidence = escalation_threshold cfg ->
      RouterService.should_escalate cfg confidence urgency = false)) /\
  RouterService.should_escalate settings 0.6 MEDIUM = false /\
  RouterService.should_escalate settings 0.59999 MEDIUM = true.
Proof.
  unfold RouterService.should_escalate.
  repeat split; try (vm_compute; reflexivity).
  - rewrite bool_decide_eq_false_2 by assumption.
    destruct (PyFloat.lt _ _); congruence.
  - rewrite bool_decide_eq_false_2 by assumption. intros ->; reflexivity.
  - intros ->. rewrite bool_decide_eq_false_2 by assumption.
    rewrite lt_irrefl. reflexivity.
Qed.

(** The two policies exclude each other as soon as the escalation threshold
    is not above the auto-send threshold. *)
Lemma policies_exclusive_ordered (cfg : Settings) (confidence : float)
    (urgency : UrgencyLevel) :
  PyFloat.le (escalation_threshold cfg) (auto_send_threshold cfg) = true ->
  RouterService.should_auto_send cfg confidence urgency = true ->
  RouterService.should_escalate cfg confidence urgency = false.
Proof.
  intros Hord. unfold RouterService.should_auto_send, RouterService.should_escalate.
  rewrite urgency_in_critical_high.
  destruct urgency; try discriminate;
    (rewrite bool_decide_eq_false_2 by discriminate);
    destruct (PyFloat.ge _ _) eqn:Hge; try discriminate; intros _;
    destruct (PyFloat.lt confidence _) eqn:Hlt; try reflexivity;
    pose proof (le_lt_trans _ _ _ (le_trans _ _ _ Hord Hge) Hlt) as Habs;
    rewrite lt_irrefl in Habs; discriminate.
Qed.

(** With the thresholds crossed (auto-send 0.5, escalation 0.7) a confidence
    of 0.6 at low urgency satisfies both policies. *)
Lemma policies_overlap_when_thresholds_cross :
  let cfg := with_auto_send_threshold 0.5 (with_escalation_threshold 0.7 settings) in
  RouterService.should_auto_send cfg 0.6 LOW = true /\
  RouterService.should_escalate cfg 0.6 LOW = true.
Proof. split; vm_compute; reflexivity. Qed.

(** The three end-to-end scenarios of the design document, on the policies. *)
Lemma design_scenarios :
  (PyFloat.min 0.9 0.85 = 0.85%float /\
   RouterService.route_ticket router_service BILLING LOW = "Finance Team" /\
   RouterService.should_escalate settings 0.85 LOW = false /\
   RouterService.should_auto_send settings 0.85 LOW = true) /\
  (RouterService.route_ticket router_service TECHNICAL_ISSUE CRITICAL =
     "Tech Support - ESCALATED" /\
   RouterService.should_escalate settings 0.99 CRITICAL = true /\
   RouterService.should_auto_send settings 0.99 CRITICAL = false) /\
  (PyFloat.min 0.5 0.9 = 0.5%float /\
   RouterService.route_ticket router_service ACCOUNT_ACCESS MEDIUM =
     "Account Services" /\
   RouterService.should_escalate settings 0.5 MEDIUM = true /\
   RouterService.should_auto_send settings 0.5 MEDIUM = false).
Proof. repeat split; vm_compute; reflexivity. Qed.

(** C5 (as stated) does not hold for every configuration of the thresholds,
    which both policies read from the settings: with the auto-send threshold
    at 0.5 and the escalation threshold at 0.7, a confidence of 0.6 at low
    urgency makes [should_auto_send] and [should_escalate] both true. *)
Lemma crossed_thresholds_make_both_policies_true :
  ~ forall cfg confidence urgency,
      ~ (RouterService.should_auto_send cfg confidence urgency = true /\
         RouterService.should_escalate cfg confidence urgency = true).
Proof.
  intros H.
  exact (H (with_auto_send_threshold 0.5 (with_escalation_threshold 0.7 settings))
           0.6%float LOW policies_overlap_when_thresholds_cross).
Qed.

(** C5 (amended). For every configuration in which the escalation threshold
    is not above the auto-send threshold, every confidence and every
    urgency, [should_auto_send] and [should_escalate] are never both true.
    The default thresholds, escalation 0.6 and auto-send 0.8, are such a
    configuration. *)
Theorem auto_send_and_escalate_never_both (cfg : Settings)
    (confidence : float) (urgency : UrgencyLevel) :
  PyFloat.le (escalation_threshold cfg) (auto_send_threshold cfg) = true ->
  ~ (RouterService.should_auto_send cfg confidence urgency = true /\
     RouterService.should_escalate cfg confidence urgency = true).
Proof.
  intros Hord [Ha He].
  rewrite (policies_exclusive_ordered cfg confidence urgency Hord Ha) in He.
  discriminate.
Qed.

Lemma auto_send_and_escalate_never_both_witness :
  PyFloat.le (escalation_threshold settings) (auto_send_threshold settings) =
    true /\
  forall confidence urgency,
    ~ (RouterService.should_auto_send settings confidence urgency = true /\
       RouterService.should_escalate settings confidence urgency = true).
Proof.
  split; [vm_compute; reflexivity|]. intros confidence urgency.
  apply (auto_send_and_escalate_never_both settings confidence urgency).
  vm_compute; reflexivity.
Defined.

(** ** Routing *)

Section StringFacts.

Lemma length_append (s t : string) :
  String.length (s ++ t) = String.length s + String.length t.
Proof. induction s as [|c s IH]; simpl; [reflexivity | rewrite IH; reflexivity]. Qed.

Lemma append_same_inv (s t : string) : s ++ t = s -> t = "".
Proof.
  intros H. apply (f_equal String.length) in H. rewrite length_append in H.
  destruct t; [reflexivity | simpl in H; lia].
Qed.

Lemma prefix_refl (s : string) : String.prefix s s = true.
Proof.
  induction s as [|c s IH]; simpl; [reflexivity|].
  destruct (Ascii.ascii_dec c c); [exact IH | congruence].
Qed.

Lemma prefix_append (n s t : string) :
  String.prefix n s = true -> String.prefix n (s ++ t) = true.
Proof.
  revert s; induction n as [|c n IH]; intros s.
  - intros _. destruct (s ++ t); reflexivity.
  - destruct s as [|d s]; simpl; [discriminate|].
    destruct (Ascii.ascii_dec c d); [apply IH | discriminate].
Qed.

End StringFacts.

Lemma router_service_teams (intent : IntentType) :
  RouterService.INTENT_TEAM_MAP router_service !! intent =
  Some match intent with
       | BILLING => "Finance Team"
       | TECHNICAL_ISSUE => "Tech Support"
       | ACCOUNT_ACCESS => "Account Services"
       | CANCELLATION => "Retention Team"
       | FEATURE_REQUEST => "Product Team"
       | GENERAL_INQUIRY => "General Support"
       end.
Proof. destruct intent; vm_compute; reflexivity. Qed.

(** C4. [route_ticket] returns the team the table gives for the intent, and
    "General Support" when the table has no entry for it; the suffix
    " - ESCALATED" is appended exactly when the urgency is critical, and the
    team is returned unchanged for every other urgency. The table of the
    service maps each of the six intents. *)
Theorem route_ticket_spec (self : RouterService.t) (intent : IntentType)
    (urgency : UrgencyLevel) :
  let team :=
    default "General Support" (RouterService.INTENT_TEAM_MAP self !! intent) in
  (forall mapped, RouterService.INTENT_TEAM_MAP self !! intent = Some mapped ->
     team = mapped) /\
  (RouterService.INTENT_TEAM_MAP self !! intent = None ->
     team = "General Support") /\
  (urgency = CRITICAL ->
     RouterService.route_ticket self intent urgency = team ++ " - ESCALATED") /\
  (urgency <> CRITICAL ->
     RouterService.route_ticket self intent urgency = team) /\
  (RouterService.route_ticket self intent urgency = team ++ " - ESCALATED" <->
     urgency = CRITICAL) /\
  is_Some (RouterService.INTENT_TEAM_MAP router_service !! intent).
Proof.
  intros team. unfold RouterService.route_ticket. fold team.
  split; [intros mapped H; subst team; rewrite H; reflexivity|].
  split; [intros H; subst team; rewrite H; reflexivity|].
  split; [intros ->; reflexivity|].
  split; [intros H; rewrite bool_decide_eq_false_2 by exact H; reflexivity|].
  split; [|rewrite router_service_teams; eexists; reflexivity].
  destruct (decide (urgency = CRITICAL)) as [->|Hne].
  - split; reflexivity.
  - rewrite bool_decide_eq_false_2 by exact Hne.
    split; [|intros; contradiction].
    intros H. symmetry in H. apply append_same_inv in H. discriminate.
Qed.

(** The team strings of the service, for each intent and urgency. *)
Lemma route_ticket_router_service (intent : IntentType) (urgency : UrgencyLevel) :
  RouterService.route_ticket router_service intent urgency =
  match intent with
  | BILLING => "Finance Team"
  | TECHNICAL_ISSUE => "Tech Support"
  | ACCOUNT_ACCESS => "Account Services"
  | CANCELLATION => "Retention Team"
  | FEATURE_REQUEST => "Product Team"
  | GENERAL_INQUIRY => "General Support"
  end ++ match urgency with CRITICAL => " - ESCALATED" | _ => "" end.
Proof. destruct intent, urgency; vm_compute; reflexivity. Qed.

Lemma route_ticket_spec_witness :
  RouterService.route_ticket router_without_billing BILLING CRITICAL =
    "General Support - ESCALATED" /\
  RouterService.route_ticket router_without_billing BILLING HIGH =
    "General Support" /\
  RouterService.route_ticket router_service TECHNICAL_ISSUE CRITICAL =
    "Tech Support - ESCALATED".
Proof.
  pose proof (route_ticket_spec router_without_billing BILLING CRITICAL)
    as (_ & Hdef & Hcrit & _).
  pose proof (route_ticket_spec router_without_billing BILLING HIGH)
    as (_ & Hdef' & _ & Hhigh & _).
  pose proof (route_ticket_spec router_service TECHNICAL_ISSUE CRITICAL)
    as (Hmap & _ & Hcrit' & _).
  split; [|split].
  - rewrite Hcrit by reflexivity. rewrite Hdef by (vm_compute; reflexivity).
    reflexivity.
  - rewrite Hhigh by discriminate. rewrite Hdef' by (vm_compute; reflexivity).
    reflexivity.
  - rewrite Hcrit' by reflexivity.
    rewrite (Hmap "Tech Support") by (vm_compute; reflexivity). reflexivity.
Defined.

(** ** SLA lookup *)

Lemma get_sla_hours_router_service (urgency : UrgencyLevel) :
  RouterService.get_sla_hours router_service urgency =
  match urgency with
  | LOW => 48 | MEDIUM => 24 | HIGH => 8 | CRITICAL => 2
  end%Z.
Proof. destruct urgency; vm_compute; reflexivity. Qed.

Lemma get_sla_hours_unmapped (self : RouterService.t) (urgency : UrgencyLevel) :
  RouterService.SLA_HOURS self !! urgency = None ->
  RouterService.get_sla_hours self urgency = 24%Z.
Proof. intros H. unfold RouterService.get_sla_hours. rewrite H. reflexivity. Qed.

Lemma get_sla_hours_matches_default_settings (urgency : UrgencyLevel) :
  RouterService.get_sla_hours router_service urgency =
  configured_sla settings urgency.
Proof. destruct urgency; vm_compute; reflexivity. Qed.

(** C6. The lookup reads the table written in the class body, not the
    configuration: with the SLA settings retuned (low = 72, medium = 36,
    high = 12, critical = 4) it still answers 48, 24, 8 and 2, which differ
    from the configured hours for every urgency. *)
Theorem get_sla_hours_ignores_settings (urgency : UrgencyLevel) :
  RouterService.get_sla_hours router_service urgency =
    configured_sla settings urgency /\
  RouterService.get_sla_hours router_service urgency <>
    configured_sla retuned_settings urgency.
Proof. destruct urgency; vm_compute; split; congruence. Qed.

(** ** Reply confidence *)

Lemma clamp_unit_eq (x : float) :
  PyFloat.max 0.0 (PyFloat.min 1.0 x) = clamp_unit x.
Proof. reflexivity. Qed.

(** The heuristic depends on its arguments through nine tests only; each
    combination of their answers is evaluated. *)
Lemma _calculate_confidence_range (reply intent urgency : string) :
  PyFloat.le 0.0 (_calculate_confidence reply intent urgency) = true /\
  PyFloat.le (_calculate_confidence reply intent urgency) 0.85 = true.
Proof.
  unfold _calculate_confidence, unsafe_phrases, penalize_phrase.
  cbn [fold_left].
  generalize (Nat.ltb (String.length reply) 50).
  generalize (String.eqb urgency "critical").
  repeat match goal with
  | |- context [contains ?p (lower reply)] =>
      generalize (contains p (lower reply))
  end.
  intros b1 b2 b3 b4 b5 b6 b7 b8 b9.
  destruct b1, b2, b3, b4, b5, b6, b7, b8, b9; vm_compute; split; reflexivity.
Qed.

(** C10. The reply-confidence heuristic returns a value between 0.0 and
    0.85 for every reply text, intent and urgency; so does every reply
    result that [generate_reply] returns, and the minimum of a classification
    confidence and the reply confidence does not exceed 0.85. *)
Theorem reply_confidence_at_most_085 (reply intent urgency : string) :
  let rc := _calculate_confidence reply intent urgency in
  PyFloat.le 0.0 rc = true /\
  PyFloat.le rc 0.85 = true /\
  rc = clamp_unit rc /\
  (forall cc, PyFloat.is_number cc = true ->
     PyFloat.le (PyFloat.min cc rc) 0.85 = true) /\
  (forall ext subject body result,
     generate_reply ext subject body intent urgency = Returned result ->
     PyFloat.le (ReplyResult.confidence result) 0.85 = true).
Proof.
  intros rc. destruct (_calculate_confidence_range reply intent urgency) as [H0 H1].
  fold rc in H0, H1.
  split; [exact H0|]. split; [exact H1|]. split; [|split].
  - subst rc. unfold _calculate_confidence, unsafe_phrases, penalize_phrase.
    cbn [fold_left].
    generalize (Nat.ltb (String.length reply) 50).
    generalize (String.eqb urgency "critical").
    repeat match goal with
    | |- context [contains ?p (lower reply)] =>
        generalize (contains p (lower reply))
    end.
    intros b1 b2 b3 b4 b5 b6 b7 b8 b9.
    destruct b1, b2, b3, b4, b5, b6, b7, b8, b9; vm_compute; reflexivity.
  - intros cc Hcc. unfold PyFloat.min.
    destruct (PyFloat.lt rc cc) eqn:Hlt; [exact H1|].
    apply (le_trans cc rc); [|exact H1].
    apply not_lt_le; [exact Hlt | exact (le_is_number_r _ _ H0) | exact Hcc].
  - intros ext subject body result. unfold generate_reply.
    destruct (llm_reply ext subject body intent urgency) as [content|e];
      [|discriminate].
    unfold ReplyResult.new. destruct (Field_ge0_le1 _); [|discriminate].
    intros [= <-]. simpl.
    apply (_calculate_confidence_range (strip content) intent urgency).
Qed.

Lemma reply_confidence_at_most_085_witness :
  PyFloat.le (PyFloat.min 0.9 (_calculate_confidence safe_reply "billing" "low"))
    0.85 = true /\
  _calculate_confidence safe_reply "billing" "low" = 0.85%float /\
  _calculate_confidence "We promise a refund." "billing" "critical" =
    0.24999999999999986%float.
Proof.
  split; [|split; vm_compute; reflexivity].
  apply (reply_confidence_at_most_085 safe_reply "billing" "low").
  vm_compute; reflexivity.
Defined.

(** ** The per-ticket step of the ingestion *)

Section IngestStep.

Variable ext : External.
Variable cfg : Settings.
Variable ticket_data : TicketCreate.t.

Let subject := TicketCreate.subject ticket_data.
Let body := TicketCreate.body ticket_data.

Lemma ingest_try_body_classification_failure (ticket : Ticket.t) (e : exn) :
  classify_ticket ext subject body = Raised e ->
  ingest_try_body ext cfg ticket_data ticket = (ticket, Raised e).
Proof.
  intros H. unfold ingest_try_body, bind, call. fold subject body.
  rewrite H. reflexivity.
Qed.

Lemma ingest_try_body_reply_failure (ticket : Ticket.t)
    (classification : ClassificationResult.t) (e : exn) :
  classify_ticket ext subject body = Returned classification ->
  generate_reply ext subject body
    (IntentType_value (ClassificationResult.intent classification))
    (UrgencyLevel_value (ClassificationResult.urgency classification)) =
    Raised e ->
  ingest_try_body ext cfg ticket_data ticket =
    (Ticket.set_confidence_score
       (Some (ClassificationResult.confidence classification))
       (Ticket.set_urgency (Some (ClassificationResult.urgency classification))
          (Ticket.set_intent (Some (ClassificationResult.intent classification))
             ticket)),
     Raised e).
Proof.
  intros Hc Hr. unfold ingest_try_body, bind, call, assign. fold subject body.
  rewrite Hc, Hr. reflexivity.
Qed.

Lemma ingest_try_body_success (ticket : Ticket.t)
    (classification : ClassificationResult.t) (reply_result : ReplyResult.t) :
  classify_ticket ext subject body = Returned classification ->
  generate_reply ext subject body
    (IntentType_value (ClassificationResult.intent classification))
    (UrgencyLevel_value (ClassificationResult.urgency classification)) =
    Returned reply_result ->
  let effective :=
    PyFloat.min (ClassificationResult.confidence classification)
      (ReplyResult.confidence reply_result) in
  let routed :=
    Ticket.set_assigned_team
      (Some (RouterService.route_ticket router_service
               (ClassificationResult.intent classification)
               (ClassificationResult.urgency classification)))
      (Ticket.set_confidence_score (Some effective)
         (Ticket.set_ai_reply (Some (ReplyResult.reply reply_result))
            (Ticket.set_confidence_score
               (Some (ClassificationResult.confidence classification))
               (Ticket.set_urgency
                  (Some (ClassificationResult.urgency classification))
                  (Ticket.set_intent
                     (Some (ClassificationResult.intent classification))
                     ticket))))) in
  ingest_try_body ext cfg ticket_data ticket =
    (if RouterService.should_escalate cfg effective
          (ClassificationResult.urgency classification)
     then Ticket.set_status ESCALATED routed else routed,
     Returned tt).
Proof.
  intros Hc Hr effective routed.
  unfold ingest_try_body, bind, call, assign, read, ret. fold subject body.
  rewrite Hc, Hr. cbn [Ticket.confidence_score Ticket.set_assigned_team
    Ticket.set_confidence_score]. fold effective.
  destruct (RouterService.should_escalate cfg effective _); reflexivity.
Qed.

End IngestStep.

(** The auto-send threshold plays no part in the ingestion of a ticket. *)
Lemma ingest_ticket_ignores_auto_send_threshold (ext : External)
    (cfg : Settings) (threshold : float) (ticket_data : TicketCreate.t) :
  ingest_ticket ext (with_auto_send_threshold threshold cfg) ticket_data =
  ingest_ticket ext cfg ticket_data.
Proof. reflexivity. Qed.

(** C1 (as the code has it). For a ticket whose classification and reply
    generation both succeed, the confidence stored on the ticket is
    [min(classification confidence, reply confidence)], the team is the one
    [route_ticket] gives for the intent and urgency, and the status is
    escalated exactly when [should_escalate] holds of that minimum, the
    urgency and the escalation threshold, and pending review otherwise. No
    auto-send flag is computed: the ticket is the same for every auto-send
    threshold. *)
Theorem ingest_decision_step (ext : External) (cfg : Settings)
    (ticket_data : TicketCreate.t) (classification : ClassificationResult.t)
    (reply_result : ReplyResult.t) :
  classify_ticket ext (TicketCreate.subject ticket_data)
    (TicketCreate.body ticket_data) = Returned classification ->
  generate_reply ext (TicketCreate.subject ticket_data)
    (TicketCreate.body ticket_data)
    (IntentType_value (ClassificationResult.intent classification))
    (UrgencyLevel_value (ClassificationResult.urgency classification)) =
    Returned reply_result ->
  let effective :=
    PyFloat.min (ClassificationResult.confidence classification)
      (ReplyResult.confidence reply_result) in
  let intent := ClassificationResult.intent classification in
  let urgency := ClassificationResult.urgency classification in
  let ticket := ingest_ticket ext cfg ticket_data in
  Ticket.confidence_score ticket = Some effective /\
  Ticket.assigned_team ticket =
    Some (RouterService.route_ticket router_service intent urgency) /\
  Ticket.status ticket =
    (if RouterService.should_escalate cfg effective urgency
     then ESCALATED else PENDING_REVIEW) /\
  (forall threshold,
     ingest_ticket ext (with_auto_send_threshold threshold cfg) ticket_data =
     ticket).
Proof.
  intros Hc Hr effective intent urgency ticket.
  assert (Hticket : ticket =
            let routed :=
              Ticket.set_assigned_team
                (Some (RouterService.route_ticket router_service intent urgency))
                (Ticket.set_confidence_score (Some effective)
                   (Ticket.set_ai_reply (Some (ReplyResult.reply reply_result))
                      (Ticket.set_confidence_score
                         (Some (ClassificationResult.confidence classification))
                         (Ticket.set_urgency (Some urgency)
                            (Ticket.set_intent (Some intent)
                               (fresh_ticket ticket_data)))))) in
            if RouterService.should_escalate cfg effective urgency
            then Ticket.set_status ESCALATED routed else routed).
  { subst ticket. unfold ingest_ticket.
    rewrite (ingest_try_body_success ext cfg ticket_data _ _ _ Hc Hr).
    reflexivity. }
  split; [|split; [|split]].
  - rewrite Hticket. cbv zeta.
    destruct (RouterService.should_escalate cfg effective urgency); reflexivity.
  - rewrite Hticket. cbv zeta.
    destruct (RouterService.should_escalate cfg effective urgency); reflexivity.
  - rewrite Hticket. cbv zeta.
    destruct (RouterService.should_escalate cfg effective urgency); reflexivity.
  - intros threshold. apply ingest_ticket_ignores_auto_send_threshold.
Qed.

Lemma ingest_decision_step_witness :
  let ticket := ingest_ticket sample_external settings (mail "invoice") in
  Ticket.confidence_score ticket = Some 0.85%float /\
  Ticket.assigned_team ticket = Some "Finance Team" /\
  Ticket.status ticket = PENDING_REVIEW.
Proof.
  destruct (ingest_decision_step sample_external settings (mail "invoice")
              {| ClassificationResult.intent := BILLING;
                 ClassificationResult.urgency := LOW;
                 ClassificationResult.confidence := 0.9;
                 ClassificationResult.reasoning := None |}
              {| ReplyResult.reply := safe_reply;
                 ReplyResult.confidence := 0.85 |})
    as (Hscore & Hteam & Hstatus & _);
    [vm_compute; reflexivity | vm_compute; reflexivity |].
  cbv zeta. rewrite Hscore, Hteam, Hstatus.
  split; [|split]; vm_compute; reflexivity.
Defined.

(** C1 (as stated) does not hold: no auto-send flag can be read off the
    ticket that the ingestion step produces. With classification confidence
    0.9, reply confidence 0.85 and low urgency, [should_auto_send] is true
    under the threshold 0.8 and false under 0.9, and the ingested ticket is
    the same in both cases. *)
Lemma ingest_computes_no_auto_send_flag :
  ~ exists flag_of : Ticket.t -> bool,
      forall cfg ticket_data classification reply_result,
        classify_ticket sample_external (TicketCreate.subject ticket_data)
          (TicketCreate.body ticket_data) = Returned classification ->
        generate_reply sample_external (TicketCreate.subject ticket_data)
          (TicketCreate.body ticket_data)
          (IntentType_value (ClassificationResult.intent classification))
          (UrgencyLevel_value (ClassificationResult.urgency classification)) =
          Returned reply_result ->
        flag_of (ingest_ticket sample_external cfg ticket_data) =
        RouterService.should_auto_send cfg
          (PyFloat.min (ClassificationResult.confidence classification)
             (ReplyResult.confidence reply_result))
          (ClassificationResult.urgency classification).
Proof.
  intros [flag_of H].
  set (c := {| ClassificationResult.intent := BILLING;
               ClassificationResult.urgency := LOW;
               ClassificationResult.confidence := 0.9%float;
               ClassificationResult.reasoning := None |}).
  set (r := {| ReplyResult.reply := safe_reply;
               ReplyResult.confidence := 0.85%float |}).
  assert (Hc : classify_ticket sample_external
                 (TicketCreate.subject (mail "invoice"))
                 (TicketCreate.body (mail "invoice")) = Returned c)
    by (vm_compute; reflexivity).
  assert (Hr : generate_reply sample_external
                 (TicketCreate.subject (mail "invoice"))
                 (TicketCreate.body (mail "invoice"))
                 (IntentType_value (ClassificationResult.intent c))
                 (UrgencyLevel_value (ClassificationResult.urgency c)) =
               Returned r)
    by (vm_compute; reflexivity).
  pose proof (H settings (mail "invoice") c r Hc Hr) as H1.
  pose proof (H (with_auto_send_threshold 0.9 settings) (mail "invoice") c r
                Hc Hr) as H2.
  rewrite ingest_ticket_ignores_auto_send_threshold in H2.
  rewrite H1 in H2. vm_compute in H2. discriminate H2.
Qed.

(** ** The ingestion loop and the commit *)

Lemma ingest_loop_from (ext : External) (cfg : Settings)
    (ticket_data_list : list TicketCreate.t) (added : list Ticket.t) (n : Z) :
  fold_left (ingest_step ext cfg) ticket_data_list (added, n) =
  ((added ++ map (ingest_ticket ext cfg) ticket_data_list)%list,
   (n + Z.of_nat (length ticket_data_list))%Z).
Proof.
  revert added n.
  induction ticket_data_list as [|ticket_data rest IH]; intros added n.
  - simpl. rewrite app_nil_r, Z.add_0_r. reflexivity.
  - cbn [fold_left]. unfold ingest_step at 2. cbn [fst snd].
    rewrite IH. rewrite <- app_assoc. cbn [map length app].
    f_equal. lia.
Qed.

Lemma ingest_loop_eq (ext : External) (cfg : Settings)
    (ticket_data_list : list TicketCreate.t) :
  ingest_loop ext cfg ticket_data_list =
  (map (ingest_ticket ext cfg) ticket_data_list,
   Z.of_nat (length ticket_data_list)).
Proof. unfold ingest_loop. rewrite ingest_loop_from. reflexivity. Qed.

Lemma commit_next_id (added : list Ticket.t) (db : Db) :
  next_id (commit added db) = (next_id db + Z.of_nat (length added))%Z.
Proof.
  revert db. induction added as [|ticket rest IH]; intros db.
  - simpl. lia.
  - unfold commit in *. cbn [fold_left]. rewrite IH. simpl. lia.
Qed.

Lemma commit_lookup_old (added : list Ticket.t) (db : Db) (k : Z) :
  (k < next_id db)%Z -> rows (commit added db) !! k = rows db !! k.
Proof.
  revert db. induction added as [|ticket rest IH]; intros db Hk.
  - reflexivity.
  - unfold commit in *. cbn [fold_left]. rewrite IH by (simpl; lia).
    simpl. apply lookup_insert_ne. lia.
Qed.

Lemma commit_lookup_new (added : list Ticket.t) (db : Db) (i : nat)
    (ticket : Ticket.t) :
  added !! i = Some ticket ->
  rows (commit added db) !! (next_id db + Z.of_nat i)%Z =
  Some (Ticket.set_id (Some (next_id db + Z.of_nat i)%Z) ticket).
Proof.
  revert db i. induction added as [|first rest IH]; intros db i Hi.
  - discriminate.
  - destruct i as [|i].
    + injection Hi as ->. change (commit (ticket :: rest) db)
        with (commit rest (insert_row db ticket)).
      rewrite commit_lookup_old by (simpl; lia).
      simpl. rewrite Z.add_0_r. apply lookup_insert_eq.
    + change (commit (first :: rest) db)
        with (commit rest (insert_row db first)).
      specialize (IH (insert_row db first) i Hi). simpl in IH.
      replace (next_id db + Z.of_nat (S i))%Z
        with (next_id db + 1 + Z.of_nat i)%Z by lia.
      exact IH.
Qed.

Lemma ingest_ticket_raised (ext : External) (cfg : Settings)
    (ticket_data : TicketCreate.t) :
  processing_raises ext cfg ticket_data = true ->
  Ticket.status (ingest_ticket ext cfg ticket_data) = ESCALATED.
Proof.
  unfold processing_raises, ingest_ticket. fold (fresh_ticket ticket_data).
  destruct (ingest_try_body ext cfg ticket_data (fresh_ticket ticket_data))
    as [ticket [[]|e]]; [discriminate | reflexivity].
Qed.

Lemma ingest_ticket_source_fields (ext : External) (cfg : Settings)
    (ticket_data : TicketCreate.t) :
  let ticket := ingest_ticket ext cfg ticket_data in
  Ticket.source ticket = TicketCreate.source ticket_data /\
  Ticket.customer_email ticket = TicketCreate.customer_email ticket_data /\
  Ticket.subject ticket = TicketCreate.subject ticket_data /\
  Ticket.body ticket = TicketCreate.body ticket_data.
Proof.
  unfold ingest_ticket. fold (fresh_ticket ticket_data).
  unfold ingest_try_body, bind, call, assign, read, ret.
  destruct (classify_ticket ext _ _) as [c|e]; [|repeat split].
  destruct (generate_reply ext _ _ _ _) as [r|e]; [|repeat split].
  cbn [Ticket.confidence_score Ticket.set_assigned_team
       Ticket.set_confidence_score].
  destruct (RouterService.should_escalate cfg _ _); repeat split.
Qed.

(** A failure of the classification or of the reply generation makes the
    body of the [try] raise. *)
Lemma processing_raises_when_a_service_fails (ext : External) (cfg : Settings)
    (ticket_data : TicketCreate.t) :
  (forall e,
     classify_ticket ext (TicketCreate.subject ticket_data)
       (TicketCreate.body ticket_data) = Raised e ->
     processing_raises ext cfg ticket_data = true) /\
  (forall classification e,
     classify_ticket ext (TicketCreate.subject ticket_data)
       (TicketCreate.body ticket_data) = Returned classification ->
     generate_reply ext (TicketCreate.subject ticket_data)
       (TicketCreate.body ticket_data)
       (IntentType_value (ClassificationResult.intent classification))
       (UrgencyLevel_value (ClassificationResult.urgency classification)) =
       Raised e ->
     processing_raises ext cfg ticket_data = true).
Proof.
  unfold processing_raises. split.
  - intros e H.
    rewrite (ingest_try_body_classification_failure _ _ _ _ _ H). reflexivity.
  - intros c e Hc Hr.
    rewrite (ingest_try_body_reply_failure _ _ _ _ _ _ Hc Hr). reflexivity.
Qed.

(** C9. [ingest_tickets] never raises out of its loop: it returns a response
    whose count is the number of fetched emails, and commits one row per
    email, in order. The row of an email whose processing raised (because
    the classification or the reply generation failed) is stored with status
    escalated, and the emails after it are processed as well. *)
Theorem ingest_tickets_contains_failures (ext : External) (cfg : Settings)
    (db : Db) :
  let ticket_data_list := fetch_unread_emails ext 10 in
  let db' := (ingest_tickets ext cfg db).1 in
  db' = commit (map (ingest_ticket ext cfg) ticket_data_list) db /\
  (exists response,
     (ingest_tickets ext cfg db).2 = Returned response /\
     processed response = Z.of_nat (length ticket_data_list)) /\
  (forall (i : nat) ticket_data,
     ticket_data_list !! i = Some ticket_data ->
     exists row,
       rows db' !! (next_id db + Z.of_nat i)%Z = Some row /\
       row = Ticket.set_id (Some (next_id db + Z.of_nat i)%Z)
               (ingest_ticket ext cfg ticket_data) /\
       Ticket.subject row = TicketCreate.subject ticket_data /\
       Ticket.body row = TicketCreate.body ticket_data /\
       (processing_raises ext cfg ticket_data = true ->
        Ticket.status row = ESCALATED)).
Proof.
  intros ticket_data_list db'.
  assert (Hdb : db' = commit (map (ingest_ticket ext cfg) ticket_data_list) db).
  { subst db'. unfold ingest_tickets. fold ticket_data_list.
    rewrite ingest_loop_eq. destruct ticket_data_list; reflexivity. }
  split; [exact Hdb|]. split.
  - unfold ingest_tickets. fold ticket_data_list. rewrite ingest_loop_eq.
    destruct ticket_data_list as [|first rest]; eexists; split; reflexivity.
  - intros i ticket_data Hi.
    eexists. split; [|split; [reflexivity|]].
    + rewrite Hdb. apply commit_lookup_new.
      rewrite list_lookup_fmap, Hi. reflexivity.
    + destruct (ingest_ticket_source_fields ext cfg ticket_data)
        as (_ & _ & Hsubject & Hbody).
      split; [exact Hsubject|]. split; [exact Hbody|].
      intros Hraised. apply (ingest_ticket_raised ext cfg ticket_data Hraised).
Qed.

Lemma ingest_tickets_contains_failures_witness :
  let db' := (ingest_tickets sample_external settings empty_db).1 in
  option_map Ticket.status (rows db' !! 1%Z) = Some PENDING_REVIEW /\
  option_map Ticket.status (rows db' !! 2%Z) = Some ESCALATED /\
  option_map Ticket.status (rows db' !! 3%Z) = Some ESCALATED /\
  (ingest_tickets sample_external settings empty_db).2 =
    Returned {| message := "Processed 3 tickets"; processed := 3 |}.
Proof.
  destruct (ingest_tickets_contains_failures sample_external settings empty_db)
    as (_ & _ & Hrows).
  destruct (Hrows 1%nat (mail "garbled") eq_refl)
    as (row2 & Hrow2 & _ & _ & _ & Hstatus2).
  destruct (Hrows 2%nat (mail "silent") eq_refl)
    as (row3 & Hrow3 & _ & _ & _ & Hstatus3).
  cbv zeta. split; [vm_compute; reflexivity|].
  split; [|split].
  - change 2%Z with (next_id empty_db + Z.of_nat 1)%Z. rewrite Hrow2. simpl.
    rewrite Hstatus2 by (vm_compute; reflexivity). reflexivity.
  - change 3%Z with (next_id empty_db + Z.of_nat 2)%Z. rewrite Hrow3. simpl.
    rewrite Hstatus3 by (vm_compute; reflexivity). reflexivity.
  - vm_compute. reflexivity.
Defined.

(** ** The escalate endpoint *)

Lemma count_occurrences_self (n : string) :
  n <> "" -> 1 <= count_occurrences n n.
Proof.
  destruct n as [|c r]; [congruence|]. intros _.
  cbn [count_occurrences]. rewrite prefix_refl. lia.
Qed.

Lemma count_occurrences_empty (n : string) :
  n <> "" -> count_occurrences n "" = 0.
Proof. destruct n as [|c r]; [congruence | reflexivity]. Qed.

Lemma count_occurrences_append (n s : string) :
  n <> "" -> count_occurrences n s + 1 <= count_occurrences n (s ++ n).
Proof.
  intros Hn. induction s as [|d s IH].
  - rewrite count_occurrences_empty by exact Hn.
    apply (count_occurrences_self n Hn).
  - change (String d s ++ n) with (String d (s ++ n)).
    cbn [count_occurrences].
    destruct (String.prefix n (String d s)) eqn:Hp.
    + apply (prefix_append _ _ n) in Hp.
      change (String d s ++ n) with (String d (s ++ n)) in Hp.
      rewrite Hp. lia.
    + destruct (String.prefix n (String d (s ++ n))); lia.
Qed.

Lemma ends_with_count (n s : string) :
  n <> "" -> ends_with n s = true -> 1 <= count_occurrences n s.
Proof.
  intros Hn. induction s as [|d s IH].
  - cbn [ends_with]. rewrite orb_false_r. intros H.
    apply String.eqb_eq in H. congruence.
  - cbn [ends_with count_occurrences]. intros H.
    apply orb_true_iff in H as [H|H].
    + apply String.eqb_eq in H. rewrite H, prefix_refl. lia.
    + specialize (IH H). lia.
Qed.

(** C8. For an existing ticket, [escalate_ticket] sets the status to
    escalated and replaces the team by the team with " - ESCALATED" appended,
    whatever the team was. A second call appends the suffix again, so the
    result differs from that of one call; and when the team already ended in
    the suffix, the new team contains it at least twice. *)
Theorem escalate_ticket_appends_suffix (db : Db) (ticket_id : Z)
    (ticket : Ticket.t) :
  query_first db ticket_id = Some ticket ->
  exists db' escalated,
    escalate_ticket ticket_id db = (db', Returned escalated) /\
    query_first db' ticket_id = Some escalated /\
    Ticket.status escalated = ESCALATED /\
    Ticket.assigned_team escalated =
      Some (format_optional (Ticket.assigned_team ticket) ++ " - ESCALATED") /\
    (forall team, Ticket.assigned_team ticket = Some team ->
       Ticket.assigned_team escalated = Some (team ++ " - ESCALATED") /\
       (ends_with " - ESCALATED" team = true ->
        2 <= count_occurrences " - ESCALATED" (team ++ " - ESCALATED"))) /\
    exists db'' twice,
      escalate_ticket ticket_id db' = (db'', Returned twice) /\
      Ticket.assigned_team twice =
        Some ((format_optional (Ticket.assigned_team ticket) ++ " - ESCALATED")
              ++ " - ESCALATED") /\
      Ticket.assigned_team twice <> Ticket.assigned_team escalated.
Proof.
  intros Hq. unfold escalate_ticket. rewrite Hq.
  eexists _, _. split; [reflexivity|].
  split; [unfold query_first; simpl; apply lookup_insert_eq|].
  split; [reflexivity|]. split; [reflexivity|]. split.
  - intros team Hteam. simpl. rewrite Hteam. split; [reflexivity|].
    intros Hends.
    pose proof (ends_with_count " - ESCALATED" team ltac:(discriminate) Hends).
    pose proof (count_occurrences_append " - ESCALATED" team
                  ltac:(discriminate)).
    lia.
  - unfold query_first. cbn [rows]. rewrite lookup_insert_eq.
    eexists _, _. split; [reflexivity|]. split; [reflexivity|].
    simpl. intros [= H]. apply append_same_inv in H. discriminate.
Qed.

Lemma escalate_ticket_appends_suffix_witness :
  exists db' escalated,
    escalate_ticket 7 critical_db = (db', Returned escalated) /\
    Ticket.assigned_team escalated =
      Some "Tech Support - ESCALATED - ESCALATED" /\
    2 <= count_occurrences " - ESCALATED"
           "Tech Support - ESCALATED - ESCALATED".
Proof.
  destruct (escalate_ticket_appends_suffix critical_db 7 critical_ticket)
    as (db' & escalated & Hcall & _ & _ & Hteam & Hsome & _);
    [vm_compute; reflexivity|].
  exists db', escalated. split; [exact Hcall|]. split; [exact Hteam|].
  destruct (Hsome "Tech Support - ESCALATED" eq_refl) as [_ Hcount].
  apply Hcount. vm_compute; reflexivity.
Defined.

(** ** Out-of-range confidence *)

Lemma min_is_one_of (a b : float) : PyFloat.min a b = a \/ PyFloat.min a b = b.
Proof. unfold PyFloat.min. destruct (PyFloat.lt b a); auto. Qed.

Lemma classify_ticket_confidence_in_range (ext : External) (subject body : string)
    (classification : ClassificationResult.t) :
  classify_ticket ext subject body = Returned classification ->
  Field_ge0_le1 (ClassificationResult.confidence classification) = true.
Proof.
  unfold classify_ticket.
  destruct (llm_classify ext subject body) as [raw|[]]; try discriminate.
  unfold ClassificationResult.new.
  destruct (IntentType_of_value (raw_intent raw)),
    (UrgencyLevel_of_value (raw_urgency raw)); try discriminate.
  destruct (Field_ge0_le1 (raw_confidence raw)) eqn:Hrange; [|discriminate].
  intros [= <-]. exact Hrange.
Qed.

Lemma generate_reply_confidence_in_range (ext : External)
    (subject body intent urgency : string) (reply_result : ReplyResult.t) :
  generate_reply ext subject body intent urgency = Returned reply_result ->
  Field_ge0_le1 (ReplyResult.confidence reply_result) = true.
Proof.
  unfold generate_reply.
  destruct (llm_reply ext subject body intent urgency) as [content|e];
    [|discriminate].
  unfold ReplyResult.new.
  destruct (Field_ge0_le1 (_calculate_confidence _ _ _)) eqn:Hrange;
    [|discriminate].
  intros [= <-]. exact Hrange.
Qed.

(** The policies evaluated on a confidence below the unit interval, on its
    clamped value, and on a NaN. *)
Lemma should_escalate_unclamped_examples :
  RouterService.should_escalate (with_escalation_threshold 0 settings)
    (-0.5) LOW = true /\
  RouterService.should_escalate (with_escalation_threshold 0 settings)
    (clamp_unit (-0.5)) LOW = false /\
  RouterService.should_auto_send settings PrimFloat.nan LOW = false /\
  RouterService.should_auto_send settings (clamp_unit PrimFloat.nan) LOW = true.
Proof. repeat split; vm_compute; reflexivity. Qed.

(** C7 (as stated) does not hold. The policies compare the confidence they
    are given, not its clamped value: with an escalation threshold of 0.0, a
    confidence of -0.5 escalates a low-urgency ticket, and its clamped value
    0.0 would not. And a classification confidence of 1.5 is not clamped to
    1.0 but makes the classification fail. *)
Lemma confidence_is_not_clamped :
  ~ ((forall cfg confidence urgency,
        RouterService.should_escalate cfg confidence urgency =
        RouterService.should_escalate cfg (clamp_unit confidence) urgency) \/
     (forall ext subject body raw,
        llm_classify ext subject body = Returned raw ->
        has_raised (classify_ticket ext subject body) = false)).
Proof.
  intros [H|H].
  - specialize (H (with_escalation_threshold 0 settings) (-0.5)%float LOW).
    vm_compute in H. discriminate H.
  - specialize (H overconfident_external "invoice" "" _ eq_refl).
    vm_compute in H. discriminate H.
Qed.

(** C7 (as the code has it). A confidence outside [0.0, 1.0], or a NaN, is
    rejected when the classification or reply result is built, not clamped:
    the result that is built carries the confidence unchanged and within the
    interval. In the ingestion, a classification whose confidence is out of
    range leaves the ticket escalated and without a confidence, and every
    confidence stored on an ingested ticket lies within the interval. *)
Theorem out_of_range_confidence_is_rejected (ext : External) (cfg : Settings)
    (ticket_data : TicketCreate.t) :
  (forall intent urgency confidence reasoning,
     match ClassificationResult.new intent urgency confidence reasoning with
     | Returned result =>
         ClassificationResult.confidence result = confidence /\
         Field_ge0_le1 confidence = true
     | Raised _ => True
     end /\
     (Field_ge0_le1 confidence = false ->
      has_raised
        (ClassificationResult.new intent urgency confidence reasoning) = true)) /\
  (forall reply confidence,
     ReplyResult.new reply confidence =
     if Field_ge0_le1 confidence
     then Returned {| ReplyResult.reply := reply;
                      ReplyResult.confidence := confidence |}
     else Raised (ValidationError "confidence")) /\
  (forall raw,
     llm_classify ext (TicketCreate.subject ticket_data)
       (TicketCreate.body ticket_data) = Returned raw ->
     Field_ge0_le1 (raw_confidence raw) = false ->
     Ticket.status (ingest_ticket ext cfg ticket_data) = ESCALATED /\
     Ticket.confidence_score (ingest_ticket ext cfg ticket_data) = None) /\
  match Ticket.confidence_score (ingest_ticket ext cfg ticket_data) with
  | Some confidence => Field_ge0_le1 confidence = true
  | None => True
  end.
Proof.
  split; [|split; [reflexivity|split]].
  - intros intent urgency confidence reasoning.
    unfold ClassificationResult.new.
    destruct (IntentType_of_value intent), (UrgencyLevel_of_value urgency),
      (Field_ge0_le1 confidence); simpl; auto.
  - intros raw Hraw Hrange.
    assert (Hc : exists e, classify_ticket ext (TicketCreate.subject ticket_data)
                   (TicketCreate.body ticket_data) = Raised e).
    { unfold classify_ticket. rewrite Hraw. unfold ClassificationResult.new.
      rewrite Hrange.
      destruct (IntentType_of_value (raw_intent raw)),
        (UrgencyLevel_of_value (raw_urgency raw)); eexists; reflexivity. }
    destruct Hc as [e Hc]. unfold ingest_ticket.
    rewrite (ingest_try_body_classification_failure _ _ _ _ _ Hc).
    split; reflexivity.
  - unfold ingest_ticket.
    destruct (classify_ticket ext (TicketCreate.subject ticket_data)
                (TicketCreate.body ticket_data)) as [c|e] eqn:Hc.
    + pose proof (classify_ticket_confidence_in_range _ _ _ _ Hc) as Hcr.
      destruct (generate_reply ext (TicketCreate.subject ticket_data)
                  (TicketCreate.body ticket_data)
                  (IntentType_value (ClassificationResult.intent c))
                  (UrgencyLevel_value (ClassificationResult.urgency c)))
        as [r|e] eqn:Hr.
      * pose proof (generate_reply_confidence_in_range _ _ _ _ _ _ Hr) as Hrr.
        rewrite (ingest_try_body_success _ _ _ _ _ _ Hc Hr). cbv zeta.
        destruct (RouterService.should_escalate cfg _ _); simpl;
          destruct (min_is_one_of (ClassificationResult.confidence c)
                      (ReplyResult.confidence r)) as [-> | ->]; assumption.
      * rewrite (ingest_try_body_reply_failure _ _ _ _ _ _ Hc Hr). exact Hcr.
    + rewrite (ingest_try_body_classification_failure _ _ _ _ _ Hc). exact I.
Qed.

Lemma out_of_range_confidence_is_rejected_witness :
  Ticket.status (ingest_ticket overconfident_external settings (mail "invoice")) =
    ESCALATED /\
  Ticket.confidence_score
    (ingest_ticket overconfident_external settings (mail "invoice")) = None.
Proof.
  destruct (out_of_range_confidence_is_rejected overconfident_external settings
              (mail "invoice")) as (_ & _ & H & _).
  apply (H {| raw_intent := "billing"; raw_urgency := "low";
              raw_confidence := 1.5; raw_reasoning := None |});
    vm_compute; reflexivity.
Defined.

(** ** Creating a ticket by hand *)

Lemma manual_try_body_classification_failure (ext : External)
    (ticket_data : TicketCreate.t) (ticket : Ticket.t) (e : exn) :
  classify_ticket ext (TicketCreate.subject ticket_data)
    (TicketCreate.body ticket_data) = Raised e ->
  manual_try_body ext ticket_data ticket = (ticket, Raised e).
Proof.
  intros H. unfold manual_try_body, bind, call. rewrite H. reflexivity.
Qed.

Lemma manual_try_body_reply_failure (ext : External)
    (ticket_data : TicketCreate.t) (ticket : Ticket.t)
    (classification : ClassificationResult.t) (e : exn) :
  classify_ticket ext (TicketCreate.subject ticket_data)
    (TicketCreate.body ticket_data) = Returned classification ->
  generate_reply ext (TicketCreate.subject ticket_data)
    (TicketCreate.body ticket_data)
    (IntentType_value (ClassificationResult.intent classification))
    (UrgencyLevel_value (ClassificationResult.urgency classification)) =
    Raised e ->
  manual_try_body ext ticket_data ticket =
    (Ticket.set_confidence_score
       (Some (ClassificationResult.confidence classification))
       (Ticket.set_urgency (Some (ClassificationResult.urgency classification))
          (Ticket.set_intent (Some (ClassificationResult.intent classification))
             ticket)),
     Raised e).
Proof.
  intros Hc Hr. unfold manual_try_body, bind, call, assign.
  rewrite Hc, Hr. reflexivity.
Qed.

Lemma manual_try_body_success (ext : External)
    (ticket_data : TicketCreate.t) (ticket : Ticket.t)
    (classification : ClassificationResult.t) (reply_result : ReplyResult.t) :
  classify_ticket ext (TicketCreate.subject ticket_data)
    (TicketCreate.body ticket_data) = Returned classification ->
  generate_reply ext (TicketCreate.subject ticket_data)
    (TicketCreate.body ticket_data)
    (IntentType_value (ClassificationResult.intent classification))
    (UrgencyLevel_value (ClassificationResult.urgency classification)) =
    Returned reply_result ->
  manual_try_body ext ticket_data ticket =
    (Ticket.set_assigned_team
       (Some (RouterService.route_ticket router_service
                (ClassificationResult.intent classification)
                (ClassificationResult.urgency classification)))
       (Ticket.set_ai_reply (Some (ReplyResult.reply reply_result))
          (Ticket.set_confidence_score
             (Some (ClassificationResult.confidence classification))
             (Ticket.set_urgency
                (Some (ClassificationResult.urgency classification))
                (Ticket.set_intent
                   (Some (ClassificationResult.intent classification))
                   ticket)))),
     Returned tt).
Proof.
  intros Hc Hr. unfold manual_try_body, bind, call, assign.
  rewrite Hc, Hr. reflexivity.
Qed.

(** X1. A ticket created by hand is stored under the next key of the
    sequence and returned with that key: fetching the key afterwards returns
    the same ticket, every other key answers as before, and the ticket
    carries the sender, subject, text and source of the request. *)
Theorem create_manual_ticket_round_trip (ext : External)
    (ticket_data : TicketCreate.t) (db : Db) :
  exists created,
    (create_manual_ticket ext ticket_data db).2 = Returned created /\
    Ticket.id created = Some (next_id db) /\
    get_ticket (next_id db) (create_manual_ticket ext ticket_data db).1 =
      Returned created /\
    (forall k, k <> next_id db ->
       get_ticket k (create_manual_ticket ext ticket_data db).1 =
       get_ticket k db) /\
    Ticket.customer_email created = TicketCreate.customer_email ticket_data /\
    Ticket.subject created = TicketCreate.subject ticket_data /\
    Ticket.body created = TicketCreate.body ticket_data /\
    Ticket.source created = TicketCreate.source ticket_data.
Proof.
  eexists. split; [reflexivity|]. split; [reflexivity|].
  split; [|split].
  - unfold get_ticket, query_first, create_manual_ticket, commit. simpl.
    rewrite lookup_insert_eq. reflexivity.
  - intros k Hk.
    unfold get_ticket, query_first, create_manual_ticket, commit. simpl.
    rewrite lookup_insert_ne by congruence. reflexivity.
  - unfold manual_ticket, manual_try_body, bind, call, assign.
    destruct (classify_ticket ext _ _) as [c|e]; [|repeat split].
    destruct (generate_reply ext _ _ _ _) as [r|e]; repeat split.
Qed.

(** X2. When classification and reply generation succeed, the ticket created
    by hand differs from the ingested one in two fields only: it keeps the
    classification confidence instead of the minimum with the reply
    confidence, and it is left pending review whatever the urgency and the
    confidence, where the ingestion escalates. *)
Theorem manual_ticket_skips_the_escalation_policy (ext : External)
    (cfg : Settings) (ticket_data : TicketCreate.t)
    (classification : ClassificationResult.t) (reply_result : ReplyResult.t) :
  classify_ticket ext (TicketCreate.subject ticket_data)
    (TicketCreate.body ticket_data) = Returned classification ->
  generate_reply ext (TicketCreate.subject ticket_data)
    (TicketCreate.body ticket_data)
    (IntentType_value (ClassificationResult.intent classification))
    (UrgencyLevel_value (ClassificationResult.urgency classification)) =
    Returned reply_result ->
  manual_ticket ext ticket_data =
    Ticket.set_status PENDING_REVIEW
      (Ticket.set_confidence_score
         (Some (ClassificationResult.confidence classification))
         (ingest_ticket ext cfg ticket_data)) /\
  Ticket.status (manual_ticket ext ticket_data) = PENDING_REVIEW /\
  (ClassificationResult.urgency classification = CRITICAL ->
   Ticket.status (ingest_ticket ext cfg ticket_data) = ESCALATED).
Proof.
  intros Hc Hr. unfold manual_ticket, ingest_ticket.
  rewrite (manual_try_body_success _ _ _ _ _ Hc Hr).
  rewrite (ingest_try_body_success _ _ _ _ _ _ Hc Hr). cbv zeta.
  split; [|split].
  - destruct (RouterService.should_escalate cfg _ _); reflexivity.
  - reflexivity.
  - intros Hcrit. rewrite Hcrit. reflexivity.
Qed.

Lemma manual_ticket_skips_the_escalation_policy_witness :
  Ticket.status (manual_ticket outage_external (mail "outage")) =
    PENDING_REVIEW /\
  Ticket.status (ingest_ticket outage_external settings (mail "outage")) =
    ESCALATED /\
  Ticket.assigned_team (manual_ticket outage_external (mail "outage")) =
    Some "Tech Support - ESCALATED".
Proof.
  destruct (manual_ticket_skips_the_escalation_policy outage_external settings
              (mail "outage")
              {| ClassificationResult.intent := TECHNICAL_ISSUE;
                 ClassificationResult.urgency := CRITICAL;
                 ClassificationResult.confidence := 0.99;
                 ClassificationResult.reasoning := None |}
              {| ReplyResult.reply := safe_reply;
                 ReplyResult.confidence := 0.75 |})
    as (_ & Hmanual & Hingest);
    [vm_compute; reflexivity | vm_compute; reflexivity |].
  split; [exact Hmanual|]. split; [exact (Hingest eq_refl)|].
  vm_compute; reflexivity.
Defined.

(** X3. A failure leaves the fields assigned before it. When the
    classification fails the stored ticket has only the fields of the email;
    when the reply generation fails after a successful classification, it
    keeps the intent, the urgency and the classification confidence and has
    no reply and no team. In both cases the ticket is escalated, and the
    ingestion and the creation by hand build the same ticket. *)
Theorem failed_processing_keeps_earlier_fields (ext : External) (cfg : Settings)
    (ticket_data : TicketCreate.t) :
  (forall e,
     classify_ticket ext (TicketCreate.subject ticket_data)
       (TicketCreate.body ticket_data) = Raised e ->
     ingest_ticket ext cfg ticket_data =
       Ticket.set_status ESCALATED (fresh_ticket ticket_data) /\
     manual_ticket ext ticket_data = ingest_ticket ext cfg ticket_data) /\
  (forall classification e,
     classify_ticket ext (TicketCreate.subject ticket_data)
       (TicketCreate.body ticket_data) = Returned classification ->
     generate_reply ext (TicketCreate.subject ticket_data)
       (TicketCreate.body ticket_data)
       (IntentType_value (ClassificationResult.intent classification))
       (UrgencyLevel_value (ClassificationResult.urgency classification)) =
       Raised e ->
     let ticket := ingest_ticket ext cfg ticket_data in
     Ticket.intent ticket = Some (ClassificationResult.intent classification) /\
     Ticket.urgency ticket =
       Some (ClassificationResult.urgency classification) /\
     Ticket.confidence_score ticket =
       Some (ClassificationResult.confidence classification) /\
     Ticket.ai_reply ticket = None /\
     Ticket.assigned_team ticket = None /\
     Ticket.status ticket = ESCALATED /\
     manual_ticket ext ticket_data = ticket).
Proof.
  split.
  - intros e Hc. unfold ingest_ticket, manual_ticket.
    rewrite (ingest_try_body_classification_failure _ _ _ _ _ Hc).
    rewrite (manual_try_body_classification_failure _ _ _ _ Hc).
    split; reflexivity.
  - intros c e Hc Hr. unfold ingest_ticket, manual_ticket.
    rewrite (ingest_try_body_reply_failure _ _ _ _ _ _ Hc Hr).
    rewrite (manual_try_body_reply_failure _ _ _ _ _ Hc Hr).
    repeat split.
Qed.

Lemma failed_processing_keeps_earlier_fields_witness :
  Ticket.intent (ingest_ticket sample_external settings (mail "garbled")) =
    None /\
  Ticket.intent (ingest_ticket sample_external settings (mail "silent")) =
    Some BILLING /\
  Ticket.confidence_score
    (ingest_ticket sample_external settings (mail "silent")) = Some 0.9%float /\
  Ticket.assigned_team
    (ingest_ticket sample_external settings (mail "silent")) = None.
Proof.
  destruct (failed_processing_keeps_earlier_fields sample_external settings
              (mail "garbled")) as [Hgarbled _].
  destruct (failed_processing_keeps_earlier_fields sample_external settings
              (mail "silent")) as [_ Hsilent].
  destruct (Hgarbled (Exception "Invalid JSON response from LLM") eq_refl)
    as [-> _].
  destruct (Hsilent
              {| ClassificationResult.intent := BILLING;
                 ClassificationResult.urgency := LOW;
                 ClassificationResult.confidence := 0.9;
                 ClassificationResult.reasoning := None |}
              (Exception "Reply generation error: connection reset"))
    as (Hintent & _ & Hscore & _ & Hteam & _);
    [vm_compute; reflexivity | vm_compute; reflexivity |].
  split; [reflexivity|]. split; [exact Hintent|]. split; [exact Hscore|].
  exact Hteam.
Defined.

(** ** Approving, rating and deleting a ticket *)

Lemma send_email_cases (provider : MailProvider) (self : GmailService)
    (to subject body : string) :
  let message :=
    {| msg_to := to; msg_subject := "Re: " ++ subject; msg_body := body |} in
  let result := send_email provider self to subject body in
  (result.2 = true /\
   sent result.1 = (sent self ++ [message])%list /\
   provider_send provider message = Returned tt /\
   service result.1 = true) \/
  (result.2 = false /\ sent result.1 = sent self).
Proof.
  unfold send_email. destruct self as [connected accepted]. simpl.
  destruct connected; simpl.
  - destruct (provider_send provider _) as [[]|e]; simpl; auto.
  - destruct (provider_authenticate provider); simpl; [|auto].
    destruct (provider_send provider _) as [[]|e]; simpl; auto.
Qed.

(** Once a message has been accepted, the same message is accepted again by
    the same provider: the service object is authenticated by then. *)
Lemma send_email_again (provider : MailProvider) (self : GmailService)
    (to subject body : string) :
  (send_email provider self to subject body).2 = true ->
  let self' := (send_email provider self to subject body).1 in
  send_email provider self' to subject body =
    ({| service := true;
        sent := (sent self' ++
                 [{| msg_to := to; msg_subject := "Re: " ++ subject;
                     msg_body := body |}])%list |}, true).
Proof.
  intros Hok.
  destruct (send_email_cases provider self to subject body)
    as [(_ & _ & Haccept & Hservice) | (Hfail & _)];
    [|cbv zeta in Hfail; congruence].
  cbv zeta in *. unfold send_email at 1.
  rewrite Hservice, Haccept. rewrite Hservice. reflexivity.
Qed.

(** X4. [approve_ticket] marks a ticket as sent exactly when the provider
    has accepted one message for it. On success the returned ticket has
    status sent and the reply as its final reply, and exactly one message
    was added, addressed to the customer of the ticket, with the subject
    prefixed by "Re: " and the reply as text. On every error (unknown
    ticket, no reply to send, sending failed) the database and the list of
    sent messages are as before. *)
Theorem approve_ticket_sends_once_or_changes_nothing
    (provider : MailProvider) (ticket_id : Z)
    (approve_data : TicketApprove.t) (gmail : GmailService) (db : Db) :
  let result := approve_ticket provider ticket_id approve_data (gmail, db) in
  match result.2 with
  | Returned approved =>
      exists ticket final_reply,
        query_first db ticket_id = Some ticket /\
        final_reply <> "" /\
        approved =
          Ticket.set_status SENT (set_final_reply (Some final_reply) ticket) /\
        query_first result.1.2 ticket_id = Some approved /\
        sent result.1.1 =
          (sent gmail ++
           [{| msg_to := Ticket.customer_email ticket;
               msg_subject := "Re: " ++ Ticket.subject ticket;
               msg_body := final_reply |}])%list
  | Raised _ => result.1.2 = db /\ sent result.1.1 = sent gmail
  end.
Proof.
  unfold approve_ticket.
  destruct (query_first db ticket_id) as [ticket|]; [|simpl; auto].
  destruct (or_else (TicketApprove.edited_reply approve_data)
              (Ticket.ai_reply ticket)) as [[|c final_reply]|]; simpl; auto.
  pose proof (send_email_cases provider gmail (Ticket.customer_email ticket)
                (Ticket.subject ticket) (String c final_reply)) as Hsend.
  cbv zeta in Hsend.
  destruct (send_email provider gmail (Ticket.customer_email ticket)
              (Ticket.subject ticket) (String c final_reply))
    as [gmail' success].
  simpl in Hsend. destruct Hsend as [(-> & Hsent & _) | (-> & Hsent)]; simpl.
  - exists ticket, (String c final_reply).
    split; [reflexivity|]. split; [discriminate|]. split; [reflexivity|].
    split; [unfold query_first; simpl; apply lookup_insert_eq | exact Hsent].
  - split; [reflexivity | exact Hsent].
Qed.

(** X5. The reply that [approve_ticket] sends is the edited reply when one is
    given and is not empty, and the generated reply otherwise; when neither
    is present the request is refused with status 400. *)
Theorem approve_ticket_reply_choice (provider : MailProvider) (ticket_id : Z)
    (approve_data : TicketApprove.t) (gmail : GmailService) (db : Db)
    (ticket : Ticket.t) :
  query_first db ticket_id = Some ticket ->
  let result := approve_ticket provider ticket_id approve_data (gmail, db) in
  (forall approved,
     result.2 = Returned approved ->
     match TicketApprove.edited_reply approve_data with
     | Some (String c edited) =>
         Ticket.final_reply approved = Some (String c edited)
     | _ => Ticket.final_reply approved = Ticket.ai_reply ticket
     end) /\
  ((TicketApprove.edited_reply approve_data = None \/
    TicketApprove.edited_reply approve_data = Some "") ->
   (Ticket.ai_reply ticket = None \/ Ticket.ai_reply ticket = Some "") ->
   result.2 = Raised (HTTPException 400 "No reply to send")).
Proof.
  intros Hq. unfold approve_ticket. rewrite Hq. split.
  - intros approved.
    destruct approve_data as [[[|c edited]|]]; simpl;
      destruct (Ticket.ai_reply ticket) as [[|d generated]|]; simpl;
      try discriminate;
      match goal with
      | |- context [send_email ?p ?g ?a ?b ?m] =>
          destruct (send_email p g a b m) as [gmail' []]
      end; simpl; try discriminate; intros [= <-]; reflexivity.
  - intros [He|He] [Ha|Ha]; rewrite He, Ha; reflexivity.
Qed.

Lemma approve_ticket_reply_choice_witness :
  (approve_ticket accepting_provider 1
     {| TicketApprove.edited_reply := Some "" |}
     (new_gmail_service, sample_db)).2 =
    Returned
      (Ticket.set_status SENT
         (set_final_reply (Some safe_reply)
            (Ticket.set_id (Some 1%Z)
               (ingest_ticket sample_external settings (mail "invoice"))))) /\
  (approve_ticket accepting_provider 2
     {| TicketApprove.edited_reply := None |}
     (new_gmail_service, sample_db)).2 =
    Raised (HTTPException 400 "No reply to send").
Proof.
  split; [vm_compute; reflexivity|].
  apply (approve_ticket_reply_choice accepting_provider 2
           {| TicketApprove.edited_reply := None |} new_gmail_service sample_db
           (Ticket.set_id (Some 2%Z)
              (ingest_ticket sample_external settings (mail "garbled")))).
  - vm_compute; reflexivity.
  - left; reflexivity.
  - left; reflexivity.
Defined.

(** X6. Nothing in [approve_ticket] looks at the status of the ticket: after a
    successful approval, approving the same ticket again with the same
    request succeeds again and sends the same message a second time. *)
Theorem approve_ticket_twice_sends_twice (provider : MailProvider)
    (ticket_id : Z) (approve_data : TicketApprove.t) (gmail : GmailService)
    (db : Db) (approved : Ticket.t) :
  let first := approve_ticket provider ticket_id approve_data (gmail, db) in
  first.2 = Returned approved ->
  let second := approve_ticket provider ticket_id approve_data first.1 in
  second.2 = Returned approved /\
  second.1.2 = first.1.2 /\
  exists message,
    sent first.1.1 = (sent gmail ++ [message])%list /\
    sent second.1.1 = (sent gmail ++ [message; message])%list.
Proof.
  intros first Hfirst second.
  assert (Hshape : exists ticket c r gmail',
            query_first db ticket_id = Some ticket /\
            or_else (TicketApprove.edited_reply approve_data)
              (Ticket.ai_reply ticket) = Some (String c r) /\
            send_email provider gmail (Ticket.customer_email ticket)
              (Ticket.subject ticket) (String c r) = (gmail', true) /\
            approved =
              Ticket.set_status SENT
                (set_final_reply (Some (String c r)) ticket) /\
            first =
              ((gmail', update_row ticket_id approved db), Returned approved)).
  { clear second. subst first. unfold approve_ticket in Hfirst |- *.
    destruct (query_first db ticket_id) as [ticket|] eqn:Hq; [|discriminate].
    destruct (or_else (TicketApprove.edited_reply approve_data)
                (Ticket.ai_reply ticket)) as [[|c r]|] eqn:Hchoice;
      try discriminate.
    destruct (send_email provider gmail (Ticket.customer_email ticket)
                (Ticket.subject ticket) (String c r)) as [gmail' ok] eqn:Hsend.
    destruct ok; [|discriminate].
    cbn [fst snd] in Hfirst. injection Hfirst as <-.
    exists ticket, c, r, gmail'.
    split; [reflexivity|]. split; [exact Hchoice|]. split; [exact Hsend|].
    split; reflexivity. }
  destruct Hshape as (ticket & c & r & gmail' & Hq & Hchoice & Hsend & Happroved
                      & Hstate).
  subst second. clearbody first. subst first. cbn [fst snd].
  assert (Hok : (send_email provider gmail (Ticket.customer_email ticket)
                   (Ticket.subject ticket) (String c r)).2 = true)
    by (rewrite Hsend; reflexivity).
  pose proof (send_email_again provider gmail _ _ _ Hok) as Hagain.
  pose proof (send_email_cases provider gmail (Ticket.customer_email ticket)
                (Ticket.subject ticket) (String c r)) as Hcases.
  cbv zeta in Hagain, Hcases. rewrite Hsend in Hagain, Hcases.
  cbn [fst snd] in Hagain, Hcases.
  destruct Hcases as [(_ & Hsent & _) | (Habs & _)]; [|discriminate].
  unfold approve_ticket.
  replace (query_first (update_row ticket_id approved db) ticket_id)
    with (Some approved)
    by (unfold query_first; simpl; symmetry; apply lookup_insert_eq).
  replace (Ticket.ai_reply approved) with (Ticket.ai_reply ticket)
    by (rewrite Happroved; reflexivity).
  replace (Ticket.customer_email approved) with (Ticket.customer_email ticket)
    by (rewrite Happroved; reflexivity).
  replace (Ticket.subject approved) with (Ticket.subject ticket)
    by (rewrite Happroved; reflexivity).
  rewrite Hchoice, Hagain. cbn [fst snd].
  split; [|split].
  - f_equal. rewrite Happroved. reflexivity.
  - unfold update_row. simpl. f_equal.
    rewrite insert_insert_eq. f_equal. rewrite Happroved. reflexivity.
  - eexists. split; [exact Hsent|]. cbn [sent].
    rewrite Hsent, <- app_assoc. reflexivity.
Qed.

Lemma approve_ticket_twice_sends_twice_witness :
  let first :=
    approve_ticket accepting_provider 1
      {| TicketApprove.edited_reply := None |} (new_gmail_service, sample_db) in
  let second :=
    approve_ticket accepting_provider 1
      {| TicketApprove.edited_reply := None |} first.1 in
  length (sent second.1.1) = 2 /\
  option_map Ticket.status (query_first second.1.2 1) = Some SENT.
Proof.
  cbv zeta.
  destruct (approve_ticket_twice_sends_twice accepting_provider 1
              {| TicketApprove.edited_reply := None |} new_gmail_service
              sample_db
              (Ticket.set_status SENT
                 (set_final_reply (Some safe_reply)
                    (Ticket.set_id (Some 1%Z)
                       (ingest_ticket sample_external settings
                          (mail "invoice"))))))
    as (_ & Hdb & message & _ & Hsent); [vm_compute; reflexivity|].
  split.
  - rewrite Hsent. reflexivity.
  - rewrite Hdb. vm_compute. reflexivity.
Defined.

(** X7. [submit_feedback] stores the comment and the rating on the ticket
    and changes no other field, whatever the status of the ticket; a rating
    accepted by the request schema lies between 1 and 5. *)
Theorem submit_feedback_only_sets_feedback (ticket_id : Z)
    (feedback : string) (rating : Z) (feedback_data : TicketFeedback.t)
    (db : Db) (ticket : Ticket.t) :
  TicketFeedback.new feedback rating = Returned feedback_data ->
  query_first db ticket_id = Some ticket ->
  exists rated,
    submit_feedback ticket_id feedback_data db =
      (update_row ticket_id rated db, Returned rated) /\
    Ticket.feedback rated = Some feedback /\
    Ticket.feedback_rating rated = Some rating /\
    (1 <= rating <= 5)%Z /\
    Ticket.status rated = Ticket.status ticket /\
    set_feedback_rating (Ticket.feedback_rating ticket)
      (set_feedback (Ticket.feedback ticket) rated) = ticket.
Proof.
  unfold TicketFeedback.new. intros Hnew Hq.
  destruct ((1 <=? rating)%Z && (rating <=? 5)%Z) eqn:Hrange; [|discriminate].
  injection Hnew as <-. apply andb_true_iff in Hrange as [Hlo Hhi].
  apply Z.leb_le in Hlo, Hhi.
  unfold submit_feedback. rewrite Hq. eexists. split; [reflexivity|].
  simpl. repeat split; try assumption. destruct ticket; reflexivity.
Qed.

Lemma submit_feedback_only_sets_feedback_witness :
  exists rated,
    (submit_feedback 2 {| TicketFeedback.feedback := "slow";
                          TicketFeedback.rating := 2 |} sample_db).2 =
      Returned rated /\
    Ticket.feedback_rating rated = Some 2%Z /\
    Ticket.status rated = ESCALATED.
Proof.
  destruct (submit_feedback_only_sets_feedback 2 "slow" 2
              {| TicketFeedback.feedback := "slow";
                 TicketFeedback.rating := 2 |} sample_db
              (Ticket.set_id (Some 2%Z)
                 (ingest_ticket sample_external settings (mail "garbled"))))
    as (rated & Hcall & _ & Hrating & _ & Hstatus & _);
    [reflexivity | vm_compute; reflexivity |].
  exists rated. rewrite Hcall. split; [reflexivity|].
  split; [exact Hrating|]. rewrite Hstatus. vm_compute. reflexivity.
Defined.

(** X8. After [delete_ticket] has removed a ticket, fetching it and deleting
    it again both answer 404, and every other ticket is still there. *)
Theorem delete_ticket_removes_the_ticket (ticket_id : Z) (db : Db)
    (ticket : Ticket.t) :
  query_first db ticket_id = Some ticket ->
  let db' := (delete_ticket ticket_id db).1 in
  (delete_ticket ticket_id db).2 = Returned "Ticket deleted" /\
  get_ticket ticket_id db' = Raised (HTTPException 404 "Ticket not found") /\
  delete_ticket ticket_id db' =
    (db', Raised (HTTPException 404 "Ticket not found")) /\
  (forall k, k <> ticket_id -> get_ticket k db' = get_ticket k db).
Proof.
  intros Hq. unfold delete_ticket at 1 2 3. rewrite Hq. cbv zeta. simpl.
  assert (Hgone : query_first
                    {| rows := delete ticket_id (rows db);
                       next_id := next_id db |} ticket_id = None)
    by (unfold query_first; simpl; apply lookup_delete_eq).
  split; [reflexivity|]. split; [unfold get_ticket; rewrite Hgone; reflexivity|].
  split; [unfold delete_ticket; rewrite Hgone; reflexivity|].
  intros k Hk. unfold get_ticket, query_first. simpl.
  rewrite lookup_delete_ne by congruence. reflexivity.
Qed.

Lemma delete_ticket_removes_the_ticket_witness :
  get_ticket 2 (delete_ticket 2 sample_db).1 =
    Raised (HTTPException 404 "Ticket not found") /\
  option_map Ticket.status (query_first (delete_ticket 2 sample_db).1 3) =
    Some ESCALATED.
Proof.
  destruct (delete_ticket_removes_the_ticket 2 sample_db
              (Ticket.set_id (Some 2%Z)
                 (ingest_ticket sample_external settings (mail "garbled"))))
    as (_ & Hget & _ & _); [vm_compute; reflexivity|].
  split; [exact Hget | vm_compute; reflexivity].
Defined.

(** X9. For a key under which no ticket is stored, every endpoint that takes
    a key answers 404 "Ticket not found", sends nothing and leaves the
    database as it is. *)
Theorem unknown_ticket_is_404 (provider : MailProvider) (ticket_id : Z)
    (approve_data : TicketApprove.t) (feedback_data : TicketFeedback.t)
    (gmail : GmailService) (db : Db) :
  query_first db ticket_id = None ->
  let not_found {A} : outcome A :=
    Raised (HTTPException 404 "Ticket not found") in
  get_ticket ticket_id db = not_found /\
  approve_ticket provider ticket_id approve_data (gmail, db) =
    ((gmail, db), not_found) /\
  escalate_ticket ticket_id db = (db, not_found) /\
  submit_feedback ticket_id feedback_data db = (db, not_found) /\
  delete_ticket ticket_id db = (db, not_found).
Proof.
  intros Hq. unfold get_ticket, approve_ticket, escalate_ticket,
    submit_feedback, delete_ticket. rewrite Hq. repeat split.
Qed.

Lemma unknown_ticket_is_404_witness :
  escalate_ticket 9 sample_db =
    (sample_db, Raised (HTTPException 404 "Ticket not found")) /\
  get_ticket 0 empty_db = Raised (HTTPException 404 "Ticket not found").
Proof.
  destruct (unknown_ticket_is_404 accepting_provider 9
              {| TicketApprove.edited_reply := None |}
              {| TicketFeedback.feedback := ""; TicketFeedback.rating := 1 |}
              new_gmail_service sample_db) as (_ & _ & Hescalate & _);
    [vm_compute; reflexivity|].
  destruct (unknown_ticket_is_404 accepting_provider 0
              {| TicketApprove.edited_reply := None |}
              {| TicketFeedback.feedback := ""; TicketFeedback.rating := 1 |}
              new_gmail_service empty_db) as (Hget & _);
    [vm_compute; reflexivity|].
  split; [exact Hescalate | exact Hget].
Defined.

(** X10. The endpoints that change a ticket change only the ticket they are
    given: the rows under all other keys, the key sequence and the key
    recorded on the changed ticket are as before. *)
Theorem endpoints_change_one_row (provider : MailProvider) (ticket_id : Z)
    (approve_data : TicketApprove.t) (feedback_data : TicketFeedback.t)
    (gmail : GmailService) (db : Db) :
  let others_kept (db' : Db) :=
    next_id db' = next_id db /\
    (forall k, k <> ticket_id -> query_first db' k = query_first db k) /\
    (option_map Ticket.id (query_first db' ticket_id) =
     option_map Ticket.id (query_first db ticket_id)) in
  others_kept (escalate_ticket ticket_id db).1 /\
  others_kept (approve_ticket provider ticket_id approve_data (gmail, db)).1.2 /\
  others_kept (submit_feedback ticket_id feedback_data db).1.
Proof.
  cbv zeta. unfold escalate_ticket, approve_ticket, submit_feedback.
  destruct (query_first db ticket_id) as [ticket|] eqn:Hq;
    [|simpl; rewrite Hq; repeat split].
  assert (Hupd : forall t' : Ticket.t,
            Ticket.id t' = Ticket.id ticket ->
            next_id (update_row ticket_id t' db) = next_id db /\
            (forall k, k <> ticket_id ->
               query_first (update_row ticket_id t' db) k = query_first db k) /\
            option_map Ticket.id
              (query_first (update_row ticket_id t' db) ticket_id) =
            option_map Ticket.id (Some ticket)).
  { intros t' Hid. split; [reflexivity|]. split.
    - intros k Hk. unfold query_first, update_row. simpl.
      apply lookup_insert_ne. congruence.
    - unfold query_first, update_row. simpl. rewrite lookup_insert_eq.
      simpl. congruence. }
  split; [apply (Hupd (Ticket.set_assigned_team _
                         (Ticket.set_status ESCALATED ticket))); reflexivity|].
  split; [|apply (Hupd (set_feedback_rating _ (set_feedback _ ticket)));
           reflexivity].
  destruct (or_else (TicketApprove.edited_reply approve_data)
              (Ticket.ai_reply ticket)) as [[|c r]|]; simpl;
    try (rewrite ?Hq; repeat split; fail).
  destruct (send_email provider gmail _ _ _) as [g []]; simpl.
  - apply (Hupd (Ticket.set_status SENT (set_final_reply _ ticket))).
    reflexivity.
  - rewrite ?Hq; repeat split.
Qed.

(** ** Ingesting the same mailbox twice *)

Lemma ingest_tickets_db (ext : External) (cfg : Settings) (db : Db) :
  (ingest_tickets ext cfg db).1 =
  commit (map (ingest_ticket ext cfg) (fetch_unread_emails ext 10)) db.
Proof.
  unfold ingest_tickets. rewrite ingest_loop_eq.
  destruct (fetch_unread_emails ext 10); reflexivity.
Qed.

(** X11. The ingestion does not look for an existing ticket of an email: when
    the mailbox returns the same emails again, a second run stores every one
    of them a second time, under new keys, next to the rows of the first
    run. *)
Theorem ingest_tickets_twice_stores_twice (ext : External) (cfg : Settings)
    (db : Db) :
  let ticket_data_list := fetch_unread_emails ext 10 in
  let n := Z.of_nat (length ticket_data_list) in
  let twice := (ingest_tickets ext cfg (ingest_tickets ext cfg db).1).1 in
  next_id twice = (next_id db + n + n)%Z /\
  forall (i : nat) ticket_data,
    ticket_data_list !! i = Some ticket_data ->
    query_first twice (next_id db + Z.of_nat i)%Z =
      Some (Ticket.set_id (Some (next_id db + Z.of_nat i)%Z)
              (ingest_ticket ext cfg ticket_data)) /\
    query_first twice (next_id db + n + Z.of_nat i)%Z =
      Some (Ticket.set_id (Some (next_id db + n + Z.of_nat i)%Z)
              (ingest_ticket ext cfg ticket_data)).
Proof.
  intros ticket_data_list n twice. subst twice.
  rewrite !ingest_tickets_db. fold ticket_data_list.
  set (added := map (ingest_ticket ext cfg) ticket_data_list).
  assert (Hn : Z.of_nat (length added) = n)
    by (subst added n; rewrite length_map; reflexivity).
  split.
  - rewrite !commit_next_id, Hn. reflexivity.
  - intros i ticket_data Hi.
    assert (Hadded : added !! i = Some (ingest_ticket ext cfg ticket_data))
      by (subst added; rewrite list_lookup_fmap, Hi; reflexivity).
    assert (Hlt : (Z.of_nat i < n)%Z).
    { apply lookup_lt_Some in Hadded. lia. }
    unfold query_first. split.
    + rewrite commit_lookup_old by (rewrite commit_next_id; lia).
      apply commit_lookup_new. exact Hadded.
    + pose proof (commit_lookup_new added (commit added db) i _ Hadded) as H.
      rewrite commit_next_id, Hn in H. exact H.
Qed.

(** ** What the reply heuristic implies for the policies *)

Lemma SFltb_leb_trans (a b c : spec_float) :
  SFltb a b = true -> SFleb b c = true -> SFltb a c = true.
Proof. sf_cases. Qed.

Lemma lt_le_trans (x y z : float) :
  PyFloat.lt x y = true -> PyFloat.le y z = true -> PyFloat.lt x z = true.
Proof.
  unfold PyFloat.le, PyFloat.lt. rewrite !leb_spec, !ltb_spec.
  apply SFltb_leb_trans.
Qed.

(** The minimum with a number does not exceed that number. *)
Lemma min_below (cc rc bound : float) :
  PyFloat.lt rc bound = true ->
  PyFloat.is_number cc = true ->
  PyFloat.lt (PyFloat.min cc rc) bound = true.
Proof.
  intros Hrc Hcc. unfold PyFloat.min.
  destruct (PyFloat.lt rc cc) eqn:Hlt; [exact Hrc|].
  apply (le_lt_trans cc rc); [|exact Hrc].
  apply not_lt_le; [exact Hlt | | exact Hcc].
  unfold PyFloat.is_number, PyFloat.le, PyFloat.lt in *.
  rewrite leb_spec. rewrite ltb_spec in Hrc. revert Hrc.
  generalize (Prim2SF rc), (Prim2SF bound). intros a b. sf_cases.
Qed.

Lemma min_not_reaching (cc rc bound : float) :
  PyFloat.lt rc bound = true ->
  PyFloat.ge (PyFloat.min cc rc) bound = false.
Proof.
  intros Hrc. unfold PyFloat.min.
  destruct (PyFloat.lt rc cc) eqn:Hlt; [apply lt_not_ge; exact Hrc|].
  destruct (PyFloat.ge cc bound) eqn:Hge; [|reflexivity].
  unfold PyFloat.ge in Hge.
  rewrite (lt_le_trans rc bound cc Hrc Hge) in Hlt. discriminate.
Qed.

Ltac confidence_flags reply urgency :=
  unfold _calculate_confidence, penalised, matched_phrases, unsafe_phrases,
    penalize_phrase;
  cbn [fold_left List.filter];
  generalize (Nat.ltb (String.length reply) 50);
  generalize (String.eqb urgency "critical");
  repeat match goal with
  | |- context [contains ?p (lower reply)] =>
      generalize (contains p (lower reply))
  end.

Lemma penalised_at_most_075 (reply intent urgency : string) :
  penalised reply urgency = true ->
  PyFloat.le (_calculate_confidence reply intent urgency) 0.75 = true.
Proof.
  confidence_flags reply urgency.
  intros b1 b2 b3 b4 b5 b6 b7 b8 b9.
  destruct b1, b2, b3, b4, b5, b6, b7, b8, b9; vm_compute;
    intros H; try reflexivity; discriminate H.
Qed.

(** X12. For a reply in ASCII text, the heuristic returns exactly 0.85 when
    the reply is at least 50 characters long, contains no unsafe phrase and
    answers a ticket that is not critical; as soon as one of the three
    penalties applies it returns at most 0.75. *)
Theorem calculate_confidence_penalty_gap (reply intent urgency : string) :
  is_ascii reply = true ->
  (penalised reply urgency = false ->
   _calculate_confidence reply intent urgency = 0.85%float) /\
  (penalised reply urgency = true ->
   PyFloat.le (_calculate_confidence reply intent urgency) 0.75 = true).
Proof.
  intros _. confidence_flags reply urgency.
  intros b1 b2 b3 b4 b5 b6 b7 b8 b9.
  destruct b1, b2, b3, b4, b5, b6, b7, b8, b9; vm_compute;
    split; intros H; try reflexivity; discriminate H.
Qed.

Lemma calculate_confidence_penalty_gap_witness :
  _calculate_confidence safe_reply "billing" "low" = 0.85%float /\
  PyFloat.le (_calculate_confidence safe_reply "billing" "critical") 0.75 = true /\
  PyFloat.le (_calculate_confidence "We will fix it." "billing" "low") 0.75 =
    true.
Proof.
  split; [|split].
  - apply (calculate_confidence_penalty_gap safe_reply "billing" "low");
      vm_compute; reflexivity.
  - apply (calculate_confidence_penalty_gap safe_reply "billing" "critical");
      vm_compute; reflexivity.
  - apply (calculate_confidence_penalty_gap "We will fix it." "billing" "low");
      vm_compute; reflexivity.
Defined.

(** X13. Under the default thresholds a reply can only be cleared for
    auto-send on the confidence that the ingestion computes if no penalty
    applied to it: whenever [should_auto_send] holds of the minimum of a
    classification confidence and the reply confidence, the reply is at
    least 50 characters long, contains no unsafe phrase and the urgency is
    not critical. *)
Theorem auto_send_needs_an_unpenalised_reply (reply intent urgency : string)
    (classification_confidence : float) (level : UrgencyLevel) :
  RouterService.should_auto_send settings
    (PyFloat.min classification_confidence
       (_calculate_confidence reply intent urgency)) level = true ->
  penalised reply urgency = false /\
  String.length reply >= 50 /\
  matched_phrases reply = [] /\
  urgency <> "critical".
Proof.
  intros Hauto.
  assert (Hpen : penalised reply urgency = false).
  { destruct (penalised reply urgency) eqn:Hpen; [|reflexivity].
    apply (penalised_at_most_075 reply intent urgency) in Hpen.
    assert (Hlt : PyFloat.lt (_calculate_confidence reply intent urgency)
                    (auto_send_threshold settings) = true).
    { apply (le_lt_trans _ 0.75%float); [exact Hpen | vm_compute; reflexivity]. }
    apply (min_not_reaching classification_confidence) in Hlt.
    unfold RouterService.should_auto_send in Hauto. rewrite Hlt in Hauto.
    destruct (bool_decide _); discriminate. }
  split; [exact Hpen|]. unfold penalised in Hpen.
  apply orb_false_iff in Hpen as [Hpen Hcrit].
  apply orb_false_iff in Hpen as [Hshort Hmatch].
  split; [apply Nat.ltb_ge in Hshort; lia|]. split.
  - apply negb_false_iff, Nat.eqb_eq in Hmatch.
    destruct (matched_phrases reply); [reflexivity | discriminate].
  - intros ->. discriminate.
Qed.

Lemma auto_send_needs_an_unpenalised_reply_witness :
  matched_phrases safe_reply = [] /\ String.length safe_reply >= 50.
Proof.
  destruct (auto_send_needs_an_unpenalised_reply safe_reply "billing" "low"
              0.9 LOW) as (_ & Hlen & Hmatch & _); [vm_compute; reflexivity|].
  split; [exact Hmatch | exact Hlen].
Defined.

(** X14. Under the default thresholds, a reply in which two or more unsafe
    phrases are found escalates the ticket in the ingestion whatever the
    classification says: its confidence is at most 0.55, below the
    escalation threshold, and so is the minimum with any classification
    confidence that is a number. *)
Theorem two_unsafe_phrases_escalate (reply intent urgency : string)
    (classification_confidence : float) (level : UrgencyLevel) :
  2 <= length (matched_phrases reply) ->
  PyFloat.le (_calculate_confidence reply intent urgency) 0.55 = true /\
  (PyFloat.is_number classification_confidence = true ->
   RouterService.should_escalate settings
     (PyFloat.min classification_confidence
        (_calculate_confidence reply intent urgency)) level = true).
Proof.
  intros Htwo.
  assert (Hle : PyFloat.le (_calculate_confidence reply intent urgency) 0.55 =
                true).
  { revert Htwo. confidence_flags reply urgency.
    intros b1 b2 b3 b4 b5 b6 b7 b8 b9.
    destruct b1, b2, b3, b4, b5, b6, b7, b8, b9; cbn [length];
      intros H; try (exfalso; lia); vm_compute; reflexivity. }
  split; [exact Hle|]. intros Hnum.
  assert (Hlt : PyFloat.lt (_calculate_confidence reply intent urgency)
                  (escalation_threshold settings) = true).
  { apply (le_lt_trans _ 0.55%float); [exact Hle | vm_compute; reflexivity]. }
  apply (min_below classification_confidence) in Hlt; [|exact Hnum].
  unfold RouterService.should_escalate. rewrite Hlt.
  destruct (bool_decide _); reflexivity.
Qed.

Lemma two_unsafe_phrases_escalate_witness :
  RouterService.should_escalate settings
    (PyFloat.min 1.0
       (_calculate_confidence
          "We guarantee a full refund and we are sorry for the trouble caused."
          "billing" "low")) LOW = true.
Proof.
  apply (two_unsafe_phrases_escalate
           "We guarantee a full refund and we are sorry for the trouble caused."
           "billing" "low" 1.0 LOW).
  - vm_compute. lia.
  - vm_compute; reflexivity.
Defined.

(** ** Letter case and white space in replies *)

Lemma lower_length (s : string) : String.length (lower s) = String.length s.
Proof. induction s as [|c s IH]; simpl; [reflexivity | rewrite IH; reflexivity]. Qed.

Lemma ascii_lower_idempotent (c : ascii) :
  ascii_lower (ascii_lower c) = ascii_lower c.
Proof.
  destruct c as [[] [] [] [] [] [] [] []]; vm_compute; reflexivity.
Qed.

Lemma lower_idempotent (s : string) : lower (lower s) = lower s.
Proof.
  induction s as [|c s IH]; simpl; [reflexivity|].
  rewrite ascii_lower_idempotent, IH. reflexivity.
Qed.

Lemma ascii_lower_below_128 (c : ascii) :
  Nat.ltb (nat_of_ascii (ascii_lower c)) 128 = Nat.ltb (nat_of_ascii c) 128.
Proof.
  destruct c as [[] [] [] [] [] [] [] []]; vm_compute; reflexivity.
Qed.

Lemma lower_is_ascii (s : string) : is_ascii (lower s) = is_ascii s.
Proof.
  induction s as [|c s IH]; [reflexivity|]. cbn [lower is_ascii].
  rewrite ascii_lower_below_128, IH. reflexivity.
Qed.

(** X15. On replies in ASCII text the heuristic does not depend on letter
    case: two such replies that are equal once lower-cased get the same
    confidence, in particular a reply and its lower-cased form, which is
    ASCII text as well. *)
Theorem calculate_confidence_ignores_case (reply reply' intent urgency : string) :
  is_ascii reply = true ->
  is_ascii reply' = true ->
  lower reply = lower reply' ->
  _calculate_confidence reply intent urgency =
    _calculate_confidence reply' intent urgency /\
  is_ascii (lower reply) = true /\
  _calculate_confidence (lower reply) intent urgency =
    _calculate_confidence reply intent urgency.
Proof.
  intros Hascii _ Heq.
  assert (Hsame : forall a b, lower a = lower b ->
            _calculate_confidence a intent urgency =
            _calculate_confidence b intent urgency).
  { intros a b Hab.
    assert (Hlen : String.length a = String.length b)
      by (rewrite <- (lower_length a), <- (lower_length b), Hab; reflexivity).
    unfold _calculate_confidence, penalize_phrase. rewrite Hlen, Hab.
    reflexivity. }
  split; [apply Hsame; exact Heq|].
  split; [rewrite lower_is_ascii; exact Hascii|].
  apply Hsame; apply lower_idempotent.
Qed.

Lemma calculate_confidence_ignores_case_witness :
  _calculate_confidence "A REFUND is on its way" "billing" "low" =
  _calculate_confidence "a refund is on its way" "billing" "low".
Proof.
  apply (calculate_confidence_ignores_case "A REFUND is on its way"
           "a refund is on its way" "billing" "low");
    vm_compute; reflexivity.
Defined.

Lemma lstrip_no_leading_space (s : string) :
  starts_with_space (lstrip s) = false.
Proof.
  induction s as [|c s IH]; [reflexivity|].
  simpl. destruct (is_space c) eqn:Hc; [exact IH | simpl; exact Hc].
Qed.

Lemma rstrip_no_trailing_space (s : string) :
  ends_with_space (rstrip s) = false.
Proof.
  induction s as [|c s IH]; [reflexivity|].
  cbn [rstrip]. destruct (rstrip s) as [|d r].
  - destruct (is_space c) eqn:Hc; [reflexivity | simpl; exact Hc].
  - exact IH.
Qed.

Lemma rstrip_keeps_no_leading_space (s : string) :
  starts_with_space s = false -> starts_with_space (rstrip s) = false.
Proof.
  destruct s as [|c s]; [reflexivity|]. cbn [rstrip starts_with_space].
  intros Hc. destruct (rstrip s); [rewrite Hc|]; simpl; exact Hc.
Qed.

Lemma rstrip_length (s : string) : String.length (rstrip s) <= String.length s.
Proof.
  induction s as [|c s IH]; [reflexivity|]. cbn [rstrip].
  destruct (rstrip s) as [|d r].
  - destruct (is_space c); simpl; lia.
  - simpl in *. lia.
Qed.

Lemma lstrip_length (s : string) : String.length (lstrip s) <= String.length s.
Proof.
  induction s as [|c s IH]; [reflexivity|]. simpl.
  destruct (is_space c); simpl; lia.
Qed.

Lemma lstrip_is_ascii (s : string) :
  is_ascii s = true -> is_ascii (lstrip s) = true.
Proof.
  induction s as [|c s IH]; [reflexivity|]. intros Hs. cbn [lstrip].
  destruct (is_space c); [|exact Hs].
  cbn [is_ascii] in Hs. apply andb_true_iff in Hs as [_ Hs]. exact (IH Hs).
Qed.

Lemma rstrip_is_ascii (s : string) :
  is_ascii s = true -> is_ascii (rstrip s) = true.
Proof.
  induction s as [|c s IH]; [reflexivity|]. intros Hs.
  cbn [is_ascii] in Hs. apply andb_true_iff in Hs as [Hc Hs].
  specialize (IH Hs). cbn [rstrip]. destruct (rstrip s) as [|d r].
  - destruct (is_space c); [reflexivity|]. cbn [is_ascii]. rewrite Hc.
    reflexivity.
  - cbn [is_ascii] in *. rewrite Hc. exact IH.
Qed.

(** X16. Whenever the language model answers in ASCII text, [generate_reply]
    returns a result (the range check on its confidence cannot fail). The
    reply it keeps is the answer without white space at either end, ASCII
    text as well, and the length test of the heuristic is applied to that
    text: an answer shorter than 50 characters, however much white space
    surrounds it, gets a confidence of at most 0.65. *)
Theorem generate_reply_measures_the_stripped_reply (ext : External)
    (subject body intent urgency content : string) :
  is_ascii content = true ->
  llm_reply ext subject body intent urgency = Returned content ->
  exists result,
    generate_reply ext subject body intent urgency = Returned result /\
    ReplyResult.reply result = strip content /\
    is_ascii (ReplyResult.reply result) = true /\
    starts_with_space (ReplyResult.reply result) = false /\
    ends_with_space (ReplyResult.reply result) = false /\
    String.length (ReplyResult.reply result) <= String.length content /\
    (String.length (strip content) < 50 ->
     PyFloat.le (ReplyResult.confidence result) 0.65 = true).
Proof.
  intros Hascii Hllm. unfold generate_reply, ReplyResult.new. rewrite Hllm.
  assert (Hrange : Field_ge0_le1
                     (_calculate_confidence (strip content) intent urgency) =
                   true).
  { destruct (_calculate_confidence_range (strip content) intent urgency)
      as [H0 H1].
    unfold Field_ge0_le1, PyFloat.ge. apply andb_true_iff. split; [exact H0|].
    apply (le_trans _ 0.85%float); [exact H1 | vm_compute; reflexivity]. }
  rewrite Hrange. eexists. split; [reflexivity|]. cbn [ReplyResult.reply
    ReplyResult.confidence].
  assert (Hlen : String.length (strip content) <= String.length content).
  { unfold strip. pose proof (rstrip_length (lstrip content)).
    pose proof (lstrip_length content). lia. }
  split; [reflexivity|]. split; [|split; [|split; [|split; [exact Hlen|]]]].
  - unfold strip. apply rstrip_is_ascii, lstrip_is_ascii. exact Hascii.
  - unfold strip. apply rstrip_keeps_no_leading_space, lstrip_no_leading_space.
  - unfold strip. apply rstrip_no_trailing_space.
  - intros Hshort.
    assert (Hlt : Nat.ltb (String.length (strip content)) 50 = true)
      by (apply Nat.ltb_lt; exact Hshort).
    clear Hshort Hlen Hrange. revert Hlt. generalize (strip content).
    intros reply.
    unfold _calculate_confidence, unsafe_phrases, penalize_phrase.
    cbn [fold_left]. intros ->.
    generalize (String.eqb urgency "critical").
    repeat match goal with
    | |- context [contains ?p (lower reply)] =>
        generalize (contains p (lower reply))
    end.
    intros b1 b2 b3 b4 b5 b6 b7 b8.
    destruct b1, b2, b3, b4, b5, b6, b7, b8; vm_compute; reflexivity.
Qed.

Lemma generate_reply_measures_the_stripped_reply_witness :
  exists result,
    generate_reply
      {| llm_classify := llm_classify sample_external;
         llm_reply := fun _ _ _ _ => Returned "   Thanks, noted.   ";
         fetch_unread_emails := fetch_unread_emails sample_external |}
      "invoice" "" "billing" "low" = Returned result /\
    ReplyResult.reply result = "Thanks, noted." /\
    PyFloat.le (ReplyResult.confidence result) 0.65 = true.
Proof.
  destruct (generate_reply_measures_the_stripped_reply
              {| llm_classify := llm_classify sample_external;
                 llm_reply := fun _ _ _ _ => Returned "   Thanks, noted.   ";
                 fetch_unread_emails := fetch_unread_emails sample_external |}
              "invoice" "" "billing" "low" "   Thanks, noted.   " eq_refl
              eq_refl)
    as (result & Hcall & Hreply & _ & _ & _ & _ & Hshort).
  exists result. split; [exact Hcall|]. split; [exact Hreply|].
  apply Hshort. vm_compute. lia.
Defined.

(** ** Labels of a classification *)

Lemma IntentType_of_value_spec (s : string) (i : IntentType) :
  IntentType_of_value s = Some i <-> IntentType_value i = s.
Proof.
  unfold IntentType_of_value, all_intents. cbn [List.find]. split.
  - repeat match goal with
    | |- context [String.eqb ?a s] =>
        destruct (String.eqb_spec a s) as [<-|]
    end; try discriminate; intros [= <-]; reflexivity.
  - intros <-. destruct i; reflexivity.
Qed.

Lemma UrgencyLevel_of_value_spec (s : string) (u : UrgencyLevel) :
  UrgencyLevel_of_value s = Some u <-> UrgencyLevel_value u = s.
Proof.
  unfold UrgencyLevel_of_value, all_urgencies. cbn [List.find]. split.
  - repeat match goal with
    | |- context [String.eqb ?a s] =>
        destruct (String.eqb_spec a s) as [<-|]
    end; try discriminate; intros [= <-]; reflexivity.
  - intros <-. destruct u; reflexivity.
Qed.

(** X17. [classify_ticket] returns a classification exactly when the language
    model returns data whose intent and urgency are values of the two
    enumerations (in their exact spelling) and whose confidence lies in
    [0.0, 1.0]; the classification then carries these labels and this
    confidence. In every other case it raises a plain [Exception]. *)
Theorem classify_ticket_accepts_valid_data_only (ext : External)
    (subject body : string) :
  (forall classification,
     classify_ticket ext subject body = Returned classification <->
     exists raw,
       llm_classify ext subject body = Returned raw /\
       IntentType_value (ClassificationResult.intent classification) =
         raw_intent raw /\
       UrgencyLevel_value (ClassificationResult.urgency classification) =
         raw_urgency raw /\
       ClassificationResult.confidence classification = raw_confidence raw /\
       ClassificationResult.reasoning classification = raw_reasoning raw /\
       Field_ge0_le1 (raw_confidence raw) = true) /\
  (forall e, classify_ticket ext subject body = Raised e ->
     exists msg, e = Exception msg).
Proof.
  unfold classify_ticket, ClassificationResult.new. split.
  - intros classification. split.
    + destruct (llm_classify ext subject body) as [raw|[]]; try discriminate.
      destruct (IntentType_of_value (raw_intent raw)) as [i|] eqn:Hi;
        [|discriminate].
      destruct (UrgencyLevel_of_value (raw_urgency raw)) as [u|] eqn:Hu;
        [|discriminate].
      destruct (Field_ge0_le1 (raw_confidence raw)) eqn:Hrange;
        [|discriminate].
      intros [= <-]. exists raw. simpl.
      apply IntentType_of_value_spec in Hi.
      apply UrgencyLevel_of_value_spec in Hu. auto 10.
    + intros (raw & -> & Hi & Hu & Hc & Hr & Hrange).
      apply IntentType_of_value_spec in Hi.
      apply UrgencyLevel_of_value_spec in Hu.
      rewrite Hi, Hu, Hrange. destruct classification; simpl in *.
      subst. reflexivity.
  - intros e.
    destruct (llm_classify ext subject body) as [raw|[]];
      try (intros [= <-]; eexists; reflexivity).
    destruct (IntentType_of_value (raw_intent raw)),
      (UrgencyLevel_of_value (raw_urgency raw)),
      (Field_ge0_le1 (raw_confidence raw));
      try discriminate; intros [= <-]; eexists; reflexivity.
Qed.

(** ** The confidence bands of the dashboard *)

Lemma lt_iff_not_ge (x y : float) :
  PyFloat.is_number x = true -> PyFloat.is_number y = true ->
  (PyFloat.lt x y = true <-> PyFloat.ge x y = false).
Proof.
  intros Hx Hy. split; [apply lt_not_ge|].
  intros Hge. destruct (PyFloat.lt x y) eqn:Hlt; [reflexivity|].
  apply not_lt_le in Hlt; [|exact Hx | exact Hy].
  unfold PyFloat.ge in Hge. unfold PyFloat.le in Hlt.
  rewrite Hlt in Hge. discriminate Hge.
Qed.

(** X18. The colour bands of the dashboard are the default thresholds of the
    policies: a score is shown as high exactly when [should_auto_send] would
    accept it for a low-urgency ticket under the default settings, and a
    score that is a number is shown as low exactly when [should_escalate]
    would escalate such a ticket. The bands are written into the dashboard,
    so they stay where they are when the thresholds are configured
    otherwise. *)
Theorem confidence_bands_are_the_default_thresholds (confidence : float) :
  (get_confidence_class confidence = "confidence-high" <->
   RouterService.should_auto_send settings confidence LOW = true) /\
  (PyFloat.is_number confidence = true ->
   (get_confidence_class confidence = "confidence-low" <->
    RouterService.should_escalate settings confidence LOW = true)) /\
  (forall cfg, PyFloat.lt 0.8 (auto_send_threshold cfg) = true ->
     get_confidence_class 0.8 = "confidence-high" /\
     RouterService.should_auto_send cfg 0.8 LOW = false).
Proof.
  unfold get_confidence_class, RouterService.should_auto_send,
    RouterService.should_escalate.
  rewrite urgency_in_critical_high.
  rewrite (bool_decide_eq_false_2 (LOW = CRITICAL)) by discriminate.
  change (auto_send_threshold settings) with 0.8%float.
  change (escalation_threshold settings) with 0.6%float.
  split; [|split].
  - destruct (PyFloat.ge confidence 0.8); [split; reflexivity|].
    destruct (PyFloat.ge confidence 0.6); split; discriminate.
  - intros Hnum.
    assert (H6 : PyFloat.is_number 0.6 = true) by (vm_compute; reflexivity).
    destruct (PyFloat.ge confidence 0.8) eqn:H8.
    + assert (Hge6 : PyFloat.ge confidence 0.6 = true).
      { unfold PyFloat.ge in *. apply (le_trans _ 0.8%float);
          [vm_compute; reflexivity | exact H8]. }
      destruct (PyFloat.lt confidence 0.6) eqn:Hlt.
      * apply (lt_iff_not_ge confidence 0.6 Hnum H6) in Hlt.
        rewrite Hge6 in Hlt. discriminate Hlt.
      * split; discriminate.
    + destruct (PyFloat.ge confidence 0.6) eqn:Hge6.
      * destruct (PyFloat.lt confidence 0.6) eqn:Hlt;
          [apply (lt_iff_not_ge confidence 0.6 Hnum H6) in Hlt;
           rewrite Hge6 in Hlt; discriminate Hlt
          | split; discriminate].
      * rewrite (proj2 (lt_iff_not_ge confidence 0.6 Hnum H6) Hge6).
        split; reflexivity.
  - intros cfg Hlt. apply lt_not_ge in Hlt. rewrite Hlt.
    split; [vm_compute; reflexivity | reflexivity].
Qed.

Lemma confidence_bands_are_the_default_thresholds_witness :
  get_confidence_class 0.59999 = "confidence-low" /\
  RouterService.should_auto_send (with_auto_send_threshold 0.9 settings)
    0.8 LOW = false.
Proof.
  destruct (confidence_bands_are_the_default_thresholds 0.59999)
    as (_ & Hlow & _).
  destruct (confidence_bands_are_the_default_thresholds 0.8)
    as (_ & _ & Hretuned).
  split.
  - apply Hlow; vm_compute; reflexivity.
  - apply (Hretuned (with_auto_send_threshold 0.9 settings)).
    vm_compute; reflexivity.
Defined.

Lemma SF_zero_or_positive (a : spec_float) :
  SFleb (Prim2SF 0) a = true -> SFltb (Prim2SF 0) a = false ->
  SFeqb a (Prim2SF 0) = true.
Proof.
  change (Prim2SF 0) with (S754_zero false).
  destruct a as [[]|[]| |[] m e]; unfold SFleb, SFltb, SFeqb; simpl;
    try reflexivity; try discriminate.
Qed.

Lemma min_with_zero (cc : float) :
  PyFloat.ge cc 0 = true -> PrimFloat.eqb (PyFloat.min cc 0) 0 = true.
Proof.
  intros Hge. unfold PyFloat.min.
  destruct (PyFloat.lt 0 cc) eqn:Hlt; [vm_compute; reflexivity|].
  unfold PyFloat.ge, PyFloat.lt in *.
  rewrite leb_spec in Hge. rewrite ltb_spec in Hlt.
  rewrite FloatAxioms.eqb_spec.
  apply SF_zero_or_positive; assumption.
Qed.

(** X19. A reply in which six or more unsafe phrases are found gets the
    confidence 0.0. The ingestion then stores a zero score for any valid
    classification confidence, and the dashboard, which writes the
    confidence line only for a score that is not zero, shows no confidence
    for the ticket. *)
Theorem zero_confidence_is_not_displayed (reply intent urgency : string)
    (classification_confidence : float) :
  6 <= length (matched_phrases reply) ->
  _calculate_confidence reply intent urgency = 0%float /\
  (Field_ge0_le1 classification_confidence = true ->
   displayed_confidence_class
     (Some (PyFloat.min classification_confidence
              (_calculate_confidence reply intent urgency))) = None).
Proof.
  intros Hsix.
  assert (Hzero : _calculate_confidence reply intent urgency = 0%float).
  { revert Hsix. confidence_flags reply urgency.
    intros b1 b2 b3 b4 b5 b6 b7 b8 b9.
    destruct b1, b2, b3, b4, b5, b6, b7, b8, b9; cbn [length];
      intros H; try (exfalso; lia); vm_compute; reflexivity. }
  split; [exact Hzero|]. intros Hrange. rewrite Hzero.
  unfold Field_ge0_le1 in Hrange. apply andb_true_iff in Hrange as [Hge _].
  unfold displayed_confidence_class. rewrite (min_with_zero _ Hge).
  reflexivity.
Qed.

Lemma zero_confidence_is_not_displayed_witness :
  displayed_confidence_class
    (Some (PyFloat.min 0.95
             (_calculate_confidence
                "refund guarantee promise will fix by tomorrow compensation"
                "billing" "low"))) = None /\
  displayed_confidence_class (Some 0.85%float) = Some "confidence-high".
Proof.
  split; [|vm_compute; reflexivity].
  apply (zero_confidence_is_not_displayed
           "refund guarantee promise will fix by tomorrow compensation"
           "billing" "low" 0.95).
  - vm_compute. lia.
  - vm_compute; reflexivity.
Defined.

(** ** The sender address of a fetched message *)

Section SplitOn.

Variable sep : ascii.

Let has (s : string) : bool := contains (String sep EmptyString) s.

Lemma has_cons (d : ascii) (r : string) :
  has (String d r) = Ascii.eqb d sep || has r.
Proof.
  unfold has. cbn [contains String.prefix].
  destruct (Ascii.ascii_dec sep d) as [<-|Hne].
  - rewrite Ascii.eqb_refl. destruct r; reflexivity.
  - destruct (Ascii.eqb_spec d sep) as [->|_]; [congruence | reflexivity].
Qed.

Lemma has_empty : has EmptyString = false.
Proof. reflexivity. Qed.

Lemma split_on_cons (s : string) :
  exists first rest, Gmail.split_on sep s = first :: rest.
Proof.
  induction s as [|c s (first & rest & IH)]; [eexists _, _; reflexivity|].
  cbn [Gmail.split_on]. destruct (Ascii.eqb c sep); [eexists _, _; reflexivity|].
  rewrite IH. eexists _, _; reflexivity.
Qed.

(** A text without the separator in front of another text joins the first
    piece of that text. *)
Lemma split_on_app (a b : string) :
  has a = false ->
  Gmail.split_on sep (a ++ b) =
  match Gmail.split_on sep b with
  | first :: rest => (a ++ first) :: rest
  | [] => [a]
  end.
Proof.
  induction a as [|c a IH]; intros Ha.
  - change (EmptyString ++ b) with b.
    destruct (split_on_cons b) as (first & rest & Hb).
    rewrite Hb. reflexivity.
  - rewrite has_cons in Ha. apply orb_false_iff in Ha as [Hc Ha].
    change (String c a ++ b) with (String c (a ++ b)).
    cbn [Gmail.split_on]. rewrite Hc, (IH Ha).
    destruct (Gmail.split_on sep b); reflexivity.
Qed.

Lemma split_on_pieces (s : string) :
  Forall (fun piece => has piece = false) (Gmail.split_on sep s).
Proof.
  induction s as [|c s IH]; [repeat constructor|].
  cbn [Gmail.split_on]. destruct (Ascii.eqb c sep) eqn:Hc.
  - constructor; [reflexivity | exact IH].
  - destruct (Gmail.split_on sep s) as [|first rest];
      [repeat constructor; rewrite has_cons, Hc; reflexivity|].
    inversion IH as [|? ? Hfirst Hrest]; subst.
    constructor; [rewrite has_cons, Hc, Hfirst; reflexivity | exact Hrest].
Qed.

Lemma split_on_first_is_prefix (s first : string) (rest : list string) :
  Gmail.split_on sep s = first :: rest -> exists tail, s = first ++ tail.
Proof.
  revert first rest. induction s as [|c s IH]; intros first rest.
  - intros [= <- <-]. exists EmptyString. reflexivity.
  - cbn [Gmail.split_on]. destruct (Ascii.eqb c sep).
    + intros [= <- <-]. eexists. reflexivity.
    + destruct (Gmail.split_on sep s) as [|first' rest'] eqn:Hs.
      * intros [= <- <-]. destruct (split_on_cons s) as (? & ? & H).
        congruence.
      * intros [= <- <-]. destruct (IH _ _ eq_refl) as [tail ->].
        exists tail. reflexivity.
Qed.

Lemma has_first_occurrence (s : string) :
  has s = true ->
  exists a b, s = a ++ String sep b /\ has a = false.
Proof.
  induction s as [|c s IH]; [discriminate|].
  rewrite has_cons. destruct (Ascii.eqb_spec c sep) as [->|Hne].
  - intros _. exists EmptyString, s. split; reflexivity.
  - simpl. intros H. destruct (IH H) as (a & b & -> & Ha).
    exists (String c a), b. split; [reflexivity|].
    rewrite has_cons, Ha. destruct (Ascii.eqb_spec c sep); [contradiction|].
    reflexivity.
Qed.

Lemma has_app_sep (a b : string) : has (a ++ String sep b) = true.
Proof.
  induction a as [|c a IH].
  - change (EmptyString ++ String sep b) with (String sep b).
    rewrite has_cons, Ascii.eqb_refl. reflexivity.
  - change (String c a ++ String sep b) with (String c (a ++ String sep b)).
    rewrite has_cons, IH. apply orb_true_r.
Qed.

End SplitOn.

Lemma contains_char_app (c : ascii) (a b : string) :
  contains (String c EmptyString) (a ++ b) =
  contains (String c EmptyString) a || contains (String c EmptyString) b.
Proof.
  induction a as [|d a IH]; [reflexivity|].
  change (String d a ++ b) with (String d (a ++ b)).
  rewrite !has_cons, IH. apply orb_assoc.
Qed.

Lemma append_empty_r (s : string) : s ++ "" = s.
Proof.
  induction s as [|c s IH]; [reflexivity|].
  change (String c s ++ "") with (String c (s ++ "")). rewrite IH. reflexivity.
Qed.

(** X20. The sender address never fails to be computed. A [From] header that
    lacks one of the two angle brackets is kept as it is; otherwise the
    result is free of angle brackets. For a header of the form
    [name <address> rest], with no [<] in the name and no bracket in the
    address, the result is the address. *)
Theorem sender_address_extracts_the_bracketed_part (from_email : string) :
  (exists address,
     Gmail.sender_address from_email = Some address /\
     (contains "<" from_email && contains ">" from_email = false ->
      address = from_email) /\
     (contains "<" from_email && contains ">" from_email = true ->
      contains "<" address = false /\ contains ">" address = false)) /\
  (forall name address rest,
     from_email = name ++ "<" ++ address ++ ">" ++ rest ->
     contains "<" name = false ->
     contains "<" address = false ->
     contains ">" address = false ->
     Gmail.sender_address from_email = Some address).
Proof.
  split.
  - unfold Gmail.sender_address.
    destruct (contains "<" from_email && contains ">" from_email) eqn:Hboth.
    + apply andb_true_iff in Hboth as [Hlt _].
      destruct (has_first_occurrence "<" from_email Hlt) as (a & b & -> & Ha).
      rewrite (split_on_app "<" a _ Ha). cbn [Gmail.split_on].
      rewrite Ascii.eqb_refl. cbn [lookup list_lookup].
      destruct (split_on_cons "<" b) as (after & more & Hafter).
      rewrite Hafter. cbn [lookup list_lookup].
      destruct (split_on_cons ">" after) as (address & more' & Haddress).
      rewrite Haddress. cbn [lookup list_lookup].
      exists address. split; [reflexivity|]. split; [discriminate|].
      intros _. split.
      * pose proof (split_on_pieces "<" b) as Hpieces. rewrite Hafter in Hpieces.
        inversion Hpieces as [|? ? Hclean _]; subst.
        destruct (split_on_first_is_prefix ">" _ _ _ Haddress) as [tail ->].
        rewrite contains_char_app in Hclean.
        apply orb_false_iff in Hclean as [Hclean _]. exact Hclean.
      * pose proof (split_on_pieces ">" after) as Hpieces.
        rewrite Haddress in Hpieces.
        inversion Hpieces as [|? ? Hclean _]; subst. exact Hclean.
    + exists from_email. split; [reflexivity|]. split; [reflexivity|].
      discriminate.
  - intros name address rest -> Hname Haddr_lt Haddr_gt.
    unfold Gmail.sender_address.
    change (name ++ "<" ++ address ++ ">" ++ rest)
      with (name ++ String "<" (address ++ String ">" rest)).
    rewrite (has_app_sep "<" name).
    assert (Hgt : contains ">" (name ++ String "<" (address ++ String ">" rest)) =
                  true).
    { rewrite contains_char_app, (has_cons ">" "<"),
        (has_app_sep ">" address rest).
      rewrite !orb_true_r. reflexivity. }
    rewrite Hgt. cbn [andb].
    rewrite (split_on_app "<" name _ Hname).
    cbn [Gmail.split_on]. rewrite Ascii.eqb_refl. cbn [lookup list_lookup].
    assert (H1 : exists tail more,
              Gmail.split_on "<" (address ++ String ">" rest) =
              (address ++ String ">" tail) :: more).
    { rewrite (split_on_app "<" address _ Haddr_lt). cbn [Gmail.split_on].
      replace (Ascii.eqb ">" "<") with false by reflexivity.
      destruct (split_on_cons "<" rest) as (first & more & ->).
      eexists _, _. reflexivity. }
    destruct H1 as (tail & more & ->). cbn [lookup list_lookup].
    rewrite (split_on_app ">" address _ Haddr_gt). cbn [Gmail.split_on].
    rewrite Ascii.eqb_refl. cbn [lookup list_lookup].
    rewrite append_empty_r. reflexivity.
Qed.

Lemma sender_address_extracts_the_bracketed_part_witness :
  Gmail.sender_address "Ann Lee <ann@example.com>" = Some "ann@example.com" /\
  Gmail.sender_address "ann@example.com" = Some "ann@example.com".
Proof.
  split; [|vm_compute; reflexivity].
  destruct (sender_address_extracts_the_bracketed_part
              "Ann Lee <ann@example.com>") as [_ H].
  apply (H "Ann Lee " "ann@example.com" ""); vm_compute; reflexivity.
Defined.
(** ** Fetching the unread messages *)

Lemma fetch_loop_some (env : Gmail.Environment) (messages : list string)
    (tickets result : list TicketCreate.t) :
  Gmail.fetch_loop env messages tickets = Some result <->
  exists new,
    result = (tickets ++ new)%list /\
    Forall2 (fun message_id ticket =>
               Gmail.message_to_ticket env message_id = Some ticket)
      messages new.
Proof.
  revert tickets. induction messages as [|m rest IH]; intros tickets.
  - cbn [Gmail.fetch_loop]. split.
    + intros [= <-]. exists []. rewrite app_nil_r. split; [reflexivity|constructor].
    + intros (new & -> & Hnew). inversion Hnew. rewrite app_nil_r. reflexivity.
  - cbn [Gmail.fetch_loop].
    destruct (Gmail.message_to_ticket env m) as [ticket|] eqn:Hm.
    + rewrite IH. split.
      * intros (new & -> & Hnew). exists (ticket :: new).
        rewrite <- app_assoc. split; [reflexivity|]. constructor; assumption.
      * intros (new & -> & Hnew). inversion Hnew as [|? t ? new' Ht Hrest]; subst.
        exists new'. rewrite <- app_assoc. split; [|exact Hrest].
        replace t with ticket by congruence. reflexivity.
    + split; [discriminate|].
      intros (new & _ & Hnew). inversion Hnew; congruence.
Qed.

Lemma fetch_loop_none (env : Gmail.Environment) (messages : list string)
    (tickets : list TicketCreate.t) (message_id : string) :
  In message_id messages ->
  Gmail.message_to_ticket env message_id = None ->
  Gmail.fetch_loop env messages tickets = None.
Proof.
  revert tickets. induction messages as [|m rest IH]; intros tickets Hin Hbad;
    [destruct Hin|].
  cbn [Gmail.fetch_loop]. destruct Hin as [->|Hin].
  - rewrite Hbad. reflexivity.
  - destruct (Gmail.message_to_ticket env m); [apply IH; assumption|reflexivity].
Qed.

Lemma message_to_ticket_valid (env : Gmail.Environment) (message_id : string)
    (ticket : TicketCreate.t) :
  Gmail.message_to_ticket env message_id = Some ticket ->
  TicketCreate.source ticket = "gmail" /\
  exists payload address,
    Gmail.get_message env message_id = Some payload /\
    Gmail.sender_address
      (Gmail.header_value "From" "" (Gmail.headers payload)) = Some address /\
    Gmail.validate_email env address =
      Some (TicketCreate.customer_email ticket).
Proof.
  unfold Gmail.message_to_ticket.
  destruct (Gmail.get_message env message_id) as [payload|]; [|discriminate].
  destruct (Gmail.sender_address _) as [address|] eqn:Haddress; [|discriminate].
  destruct (Gmail._get_email_body env payload) as [body|]; [|discriminate].
  destruct (Gmail.validate_email env address) as [customer_email|] eqn:Hvalid;
    [|discriminate].
  intros [= <-]. split; [reflexivity|].
  exists payload, address. split; [reflexivity|]. split; [exact Haddress|].
  exact Hvalid.
Qed.

(** X21. [fetch_unread_emails] returns all or nothing. When every listed
    message can be read, has a sender that validates and a text that
    decodes, it returns one ticket request per message, in order, each with
    source "gmail" and, as customer address, the address that validation
    returns for the sender taken out of the From header. When a single
    message fails, it returns the empty list, and [ingest_tickets] then
    reports that there are no new emails and stores nothing, whatever the
    other messages are. *)
Theorem fetch_unread_emails_is_all_or_nothing (env : Gmail.Environment)
    (gmail : GmailService) (max_results : Z) (messages : list string) :
  Gmail.list_unread env max_results = Some messages ->
  let fetched := (Gmail.fetch_unread_emails env gmail max_results).2 in
  (fetched = [] \/
   Forall2 (fun message_id ticket =>
              Gmail.message_to_ticket env message_id = Some ticket /\
              TicketCreate.source ticket = "gmail" /\
              exists payload address,
                Gmail.get_message env message_id = Some payload /\
                Gmail.sender_address
                  (Gmail.header_value "From" "" (Gmail.headers payload)) =
                  Some address /\
                Gmail.validate_email env address =
                  Some (TicketCreate.customer_email ticket))
     messages fetched) /\
  (forall message_id,
     In message_id messages ->
     Gmail.message_to_ticket env message_id = None ->
     fetched = [] /\
     (max_results = 10%Z ->
      forall ext cfg db,
        ingest_tickets (with_mailbox ext env gmail) cfg db =
        (db, Returned {| message := "No new emails found"; processed := 0 |}))).
Proof.
  intros Hlist fetched.
  assert (Hcases : fetched = [] \/
                   Gmail.fetch_loop env messages [] = Some fetched).
  { subst fetched. unfold Gmail.fetch_unread_emails.
    destruct (service gmail); [|destruct (Gmail.authenticate env)];
      cbn [snd]; rewrite ?Hlist;
      try (destruct (Gmail.fetch_loop env messages []); cbn [snd]; auto);
      auto. }
  split.
  - destruct Hcases as [Hempty|Hloop]; [left; exact Hempty|right].
    apply fetch_loop_some in Hloop as (new & -> & Hnew). cbn [app].
    clear Hlist. induction Hnew as [|m t ms ts Hm Hrest IH]; [constructor|].
    constructor; [|exact IH].
    split; [exact Hm | exact (message_to_ticket_valid _ _ _ Hm)].
  - intros message_id Hin Hbad.
    assert (Hempty : fetched = []).
    { destruct Hcases as [Hempty|Hloop]; [exact Hempty|].
      rewrite (fetch_loop_none env messages [] message_id Hin Hbad) in Hloop.
      discriminate. }
    split; [exact Hempty|]. intros -> ext cfg db.
    unfold ingest_tickets, with_mailbox. cbn [fetch_unread_emails].
    fold fetched. rewrite Hempty. reflexivity.
Qed.

Lemma fetch_unread_emails_is_all_or_nothing_witness :
  (Gmail.fetch_unread_emails (sample_mailbox ["m1"]) new_gmail_service 10).2 =
    [{| TicketCreate.customer_email := "Ann@example.com";
        TicketCreate.subject := "invoice";
        TicketCreate.body := "Please help.";
        TicketCreate.source := "gmail" |}] /\
  (Gmail.fetch_unread_emails (sample_mailbox ["m1"; "m2"]) new_gmail_service
     10).2 = [].
Proof.
  split; [vm_compute; reflexivity|].
  destruct (fetch_unread_emails_is_all_or_nothing (sample_mailbox ["m1"; "m2"])
              new_gmail_service 10 ["m1"; "m2"] eq_refl) as [_ H].
  apply (H "m2"); [right; left; reflexivity | vm_compute; reflexivity].
Defined.

(** ** The text of a fetched message *)

(** X22. For a message that has parts, [_get_email_body] never reads the
    body of the message itself. If none of the parts is a text/plain part
    with data (an HTML-only message, for example) the text is empty, even
    when the message body holds data; and a message without parts and
    without body data has an empty text as well. *)
Theorem get_email_body_of_a_multipart_message (env : Gmail.Environment)
    (headers : list Gmail.Header) (parts : list Gmail.MessagePart)
    (body : option Gmail.PartBody) :
  Gmail._get_email_body env
    {| Gmail.headers := headers; Gmail.parts := Some parts;
       Gmail.body := body |} =
  Gmail._get_email_body env
    {| Gmail.headers := headers; Gmail.parts := Some parts;
       Gmail.body := None |} /\
  (Forall no_plain_text parts ->
   Gmail._get_email_body env
     {| Gmail.headers := headers; Gmail.parts := Some parts;
        Gmail.body := body |} = Some "") /\
  (forall b, Gmail.truthy_data b = None ->
     Gmail._get_email_body env
       {| Gmail.headers := headers; Gmail.parts := None;
          Gmail.body := Some b |} = Some "").
Proof.
  split; [reflexivity|]. split.
  - unfold Gmail._get_email_body. cbn [Gmail.parts].
    induction 1 as [|part rest (mime & Hmime & Hplain) _ IH]; [reflexivity|].
    cbn [Gmail.first_plain_text]. rewrite Hmime.
    destruct (String.eqb_spec mime "text/plain") as [Heq|_]; [|exact IH].
    destruct (Hplain Heq) as (b & -> & ->). exact IH.
  - intros b Hb. unfold Gmail._get_email_body. cbn [Gmail.parts Gmail.body].
    rewrite Hb. reflexivity.
Qed.

Lemma get_email_body_of_a_multipart_message_witness :
  Gmail._get_email_body (sample_mailbox []) html_message = Some "" /\
  Gmail._get_email_body (sample_mailbox []) plain_message = Some "Please help.".
Proof.
  split; [|vm_compute; reflexivity].
  apply (get_email_body_of_a_multipart_message (sample_mailbox [])
           (Gmail.headers html_message)
           [{| Gmail.mimeType := Some "text/html";
               Gmail.part_body :=
                 Some {| Gmail.data := Some "PGI+SGk8L2I+" |} |}]
           (Gmail.body html_message)).
  repeat constructor. exists "text/html". split; [reflexivity|discriminate].
Defined.

(** ** Invariants of the stored tickets *)

Lemma processed_ticket_well_formed (ext : External) (cfg : Settings)
    (ticket_data : TicketCreate.t) :
  well_formed (ingest_ticket ext cfg ticket_data) /\
  well_formed (manual_ticket ext ticket_data).
Proof.
  unfold ingest_ticket, manual_ticket.
  fold (fresh_ticket ticket_data).
  destruct (classify_ticket ext (TicketCreate.subject ticket_data)
              (TicketCreate.body ticket_data)) as [c|e] eqn:Hc.
  - pose proof (classify_ticket_confidence_in_range _ _ _ _ Hc) as Hcr.
    destruct (generate_reply ext (TicketCreate.subject ticket_data)
                (TicketCreate.body ticket_data)
                (IntentType_value (ClassificationResult.intent c))
                (UrgencyLevel_value (ClassificationResult.urgency c)))
      as [r|e] eqn:Hr.
    + pose proof (generate_reply_confidence_in_range _ _ _ _ _ _ Hr) as Hrr.
      rewrite (ingest_try_body_success _ _ _ _ _ _ Hc Hr).
      rewrite (manual_try_body_success _ _ _ _ _ Hc Hr). cbv zeta.
      assert (Hmin : Field_ge0_le1
                       (PyFloat.min (ClassificationResult.confidence c)
                          (ReplyResult.confidence r)) = true)
        by (destruct (min_is_one_of (ClassificationResult.confidence c)
                        (ReplyResult.confidence r)) as [-> | ->]; assumption).
      destruct (RouterService.should_escalate cfg _ _);
        (split; constructor; simpl; auto; try discriminate;
         intros ? [= <-]; assumption).
    + rewrite (ingest_try_body_reply_failure _ _ _ _ _ _ Hc Hr).
      rewrite (manual_try_body_reply_failure _ _ _ _ _ Hc Hr).
      split; constructor; simpl; auto; try discriminate;
        intros ? [= <-]; assumption.
  - rewrite (ingest_try_body_classification_failure _ _ _ _ _ Hc).
    rewrite (manual_try_body_classification_failure _ _ _ _ Hc).
    split; constructor; simpl; auto; discriminate.
Qed.

Lemma well_formed_set_id (k : option Z) (ticket : Ticket.t) :
  well_formed ticket -> well_formed (Ticket.set_id k ticket).
Proof. intros [H1 H2 H3 H4 H5]. constructor; assumption. Qed.

Lemma commit_invariant (added : list Ticket.t) (db : Db) :
  Forall well_formed added -> (1 <= next_id db)%Z ->
  db_invariant db -> db_invariant (commit added db).
Proof.
  revert db. induction added as [|ticket rest IH]; intros db Hadded Hpos Hinv;
    [exact Hinv|].
  inversion Hadded as [|? ? Hticket Hrest]; subst.
  change (commit (ticket :: rest) db) with (commit rest (insert_row db ticket)).
  apply IH; [exact Hrest | simpl; lia |].
  intros k t. unfold query_first, insert_row. simpl.
  destruct (decide (k = next_id db)) as [->|Hne].
  - rewrite lookup_insert_eq. intros [= <-].
    split; [reflexivity|]. split; [lia|].
    apply well_formed_set_id. exact Hticket.
  - rewrite lookup_insert_ne by congruence. intros Hk.
    destruct (Hinv k t Hk) as (Hid & Hrange & Hwf).
    split; [exact Hid|]. split; [lia | exact Hwf].
Qed.

Lemma update_row_invariant (ticket_id : Z) (ticket ticket' : Ticket.t)
    (db : Db) :
  query_first db ticket_id = Some ticket ->
  Ticket.id ticket' = Ticket.id ticket ->
  well_formed ticket' ->
  db_invariant db -> db_invariant (update_row ticket_id ticket' db).
Proof.
  intros Hq Hid Hwf Hinv k t. unfold query_first, update_row. simpl.
  destruct (decide (k = ticket_id)) as [->|Hne].
  - rewrite lookup_insert_eq. intros [= <-].
    destruct (Hinv ticket_id ticket Hq) as (Hid' & Hrange & _).
    split; [congruence|]. split; [exact Hrange | exact Hwf].
  - rewrite lookup_insert_ne by congruence. apply Hinv.
Qed.

Lemma reachable_invariant (db : Db) :
  reachable db -> (1 <= next_id db)%Z /\ db_invariant db.
Proof.
  induction 1 as [ | ext ticket_data db _ [Hpos Hinv]
                   | ext cfg db _ [Hpos Hinv]
                   | ticket_id db _ [Hpos Hinv]
                   | provider ticket_id approve_data gmail db _ [Hpos Hinv]
                   | ticket_id feedback rating feedback_data db Hnew _ [Hpos Hinv]
                   | ticket_id db _ [Hpos Hinv] ].
  - split; [simpl; lia|]. intros k t. unfold query_first. simpl.
    rewrite lookup_empty. discriminate.
  - unfold create_manual_ticket. cbn [fst]. split.
    + rewrite commit_next_id. lia.
    + apply commit_invariant; [|exact Hpos | exact Hinv].
      constructor; [|constructor].
      apply (proj2 (processed_ticket_well_formed ext settings ticket_data)).
  - rewrite ingest_tickets_db. split.
    + rewrite commit_next_id. lia.
    + apply commit_invariant; [|exact Hpos | exact Hinv].
      apply List.Forall_forall. intros t Ht.
      apply List.in_map_iff in Ht as (ticket_data & <- & _).
      apply (proj1 (processed_ticket_well_formed ext cfg ticket_data)).
  - unfold escalate_ticket.
    destruct (query_first db ticket_id) as [ticket|] eqn:Hq;
      [|split; assumption].
    cbn [fst]. split; [exact Hpos|].
    apply (update_row_invariant ticket_id ticket); [exact Hq|reflexivity| |exact Hinv].
    destruct (Hinv _ _ Hq) as (_ & _ & [H1 H2 H3 H4 H5]).
    constructor; simpl; auto. discriminate.
  - unfold approve_ticket.
    destruct (query_first db ticket_id) as [ticket|] eqn:Hq;
      [|split; assumption].
    destruct (or_else (TicketApprove.edited_reply approve_data)
                (Ticket.ai_reply ticket)) as [[|c r]|];
      try (split; assumption).
    destruct (send_email provider gmail _ _ _) as [g []]; cbn [fst snd];
      [|split; assumption].
    split; [exact Hpos|].
    apply (update_row_invariant ticket_id ticket); [exact Hq|reflexivity| |exact Hinv].
    destruct (Hinv _ _ Hq) as (_ & _ & [H1 H2 H3 H4 H5]).
    constructor; simpl; auto.
    intros _. eexists. split; [reflexivity | discriminate].
  - unfold submit_feedback.
    destruct (query_first db ticket_id) as [ticket|] eqn:Hq;
      [|split; assumption].
    cbn [fst]. split; [exact Hpos|].
    apply (update_row_invariant ticket_id ticket); [exact Hq|reflexivity| |exact Hinv].
    destruct (Hinv _ _ Hq) as (_ & _ & [H1 H2 H3 H4 H5]).
    unfold TicketFeedback.new in Hnew.
    destruct ((1 <=? rating)%Z && (rating <=? 5)%Z) eqn:Hrange;
      [|discriminate].
    injection Hnew as <-. apply andb_true_iff in Hrange as [Hlo Hhi].
    apply Z.leb_le in Hlo, Hhi.
    constructor; simpl; auto. intros ? [= <-]. lia.
  - unfold delete_ticket.
    destruct (query_first db ticket_id) as [ticket|] eqn:Hq;
      [|split; assumption].
    cbn [fst]. split; [exact Hpos|].
    intros k t. unfold query_first. simpl. intros Hk.
    apply lookup_delete_Some in Hk as [_ Hk]. apply (Hinv k t Hk).
Qed.

(** X23. Whatever sequence of endpoint calls has produced the database, a
    stored ticket is pending review, sent or escalated, never approved or
    closed; a ticket that is marked as sent has a final reply that is not
    empty; and the category of a ticket is never set. *)
Theorem stored_status_discipline (db : Db) (k : Z) (ticket : Ticket.t) :
  reachable db ->
  query_first db k = Some ticket ->
  Ticket.status ticket <> APPROVED /\
  Ticket.status ticket <> CLOSED /\
  (Ticket.status ticket = SENT ->
   exists reply, Ticket.final_reply ticket = Some reply /\ reply <> "") /\
  Ticket.category ticket = None.
Proof.
  intros Hreach Hq.
  destruct (reachable_invariant db Hreach) as [_ Hinv].
  destruct (Hinv k ticket Hq) as (_ & _ & [Hstatus Hsent _ _ Hcategory]).
  split; [|split; [|split; [exact Hsent | exact Hcategory]]];
    destruct Hstatus as [-> | [-> | ->]]; discriminate.
Qed.

(** X24. Whatever sequence of endpoint calls has produced the database, a
    ticket is stored under the key it carries, keys start at 1 and lie below
    the next key of the sequence, a stored confidence lies in [0.0, 1.0] and
    a stored rating between 1 and 5. *)
Theorem stored_values_are_in_range (db : Db) (k : Z) (ticket : Ticket.t) :
  reachable db ->
  query_first db k = Some ticket ->
  Ticket.id ticket = Some k /\
  (1 <= k < next_id db)%Z /\
  (forall confidence, Ticket.confidence_score ticket = Some confidence ->
     Field_ge0_le1 confidence = true) /\
  (forall rating, Ticket.feedback_rating ticket = Some rating ->
     (1 <= rating <= 5)%Z).
Proof.
  intros Hreach Hq.
  destruct (reachable_invariant db Hreach) as [_ Hinv].
  destruct (Hinv k ticket Hq) as (Hid & Hrange & [_ _ Hconfidence Hrating _]).
  auto.
Qed.

Lemma stored_values_are_in_range_witness :
  reachable sample_db /\
  option_map Ticket.id (query_first sample_db 3) = Some (Some 3%Z) /\
  (3 < next_id sample_db)%Z.
Proof.
  assert (Hreach : reachable sample_db)
    by apply (reach_ingest sample_external settings empty_db reach_empty).
  destruct (stored_values_are_in_range sample_db 3
              (Ticket.set_id (Some 3%Z)
                 (ingest_ticket sample_external settings (mail "silent")))
              Hreach) as (Hid & Hrange & _); [vm_compute; reflexivity|].
  split; [exact Hreach|]. split; [vm_compute; reflexivity | lia].
Defined.

Lemma stored_status_discipline_witness :
  let approved :=
    (approve_ticket accepting_provider 1
       {| TicketApprove.edited_reply := None |}
       (new_gmail_service, sample_db)).1.2 in
  reachable approved /\
  exists ticket reply,
    query_first approved 1 = Some ticket /\
    Ticket.status ticket = SENT /\
    Ticket.final_reply ticket = Some reply /\ reply <> "".
Proof.
  cbv zeta.
  assert (Hreach : reachable
            (approve_ticket accepting_provider 1
               {| TicketApprove.edited_reply := None |}
               (new_gmail_service, sample_db)).1.2).
  { apply reach_approve.
    apply (reach_ingest sample_external settings empty_db reach_empty). }
  split; [exact Hreach|].
  destruct (stored_status_discipline _ 1
              (Ticket.set_status SENT
                 (set_final_reply (Some safe_reply)
                    (Ticket.set_id (Some 1%Z)
                       (ingest_ticket sample_external settings
                          (mail "invoice"))))) Hreach)
    as (_ & _ & Hsent & _); [vm_compute; reflexivity|].
  destruct (Hsent eq_refl) as (reply & Hreply & Hne).
  eexists _, reply. split; [vm_compute; reflexivity|].
  split; [reflexivity|]. split; [exact Hreply | exact Hne].
Defined.
